(** * Storage manager of the fraud-detection project

    A shallow embedding of [data_storage_setup.py] (class
    [DataStorageManager]) and the properties of its ingestion and of its
    query helpers: [load_raw_data] with [_calculate_data_hash],
    [_save_to_sqlite] and [_record_metadata], [save_processed_data],
    [query_data], [get_fraud_transactions], [get_legitimate_transactions],
    [get_transaction_count] and [get_high_value_transactions].

    The program talks to three outside parties: the file system, one SQLite
    database file and the pandas / hashlib / datetime libraries.  The file
    system and the databases are an explicit [world] that every operation
    threads through, in a monad of state and exceptions; the SQL texts the
    program sends are written with the combinators of the modules [Sql]
    and [Select] (one combinator for each SQL clause); the library functions
    whose results the program only passes along (the row hash of pandas,
    SHA-256, the clock's text) are the fields of the class [Library], over
    which everything about the ingestion is stated. *)

From Stdlib Require Import ZArith QArith Qcanon String Ascii List OrdersEx.
From Stdlib Require Strings.Byte.
From stdpp Require Import base gmap strings list sorting.

Local Open Scope string_scope.
Local Open Scope list_scope.
Local Open Scope Z_scope.

(** ** Cell values

    One type for a cell of a pandas frame and for a value stored by SQLite:
    [VNull] is pandas' NaN / [None] and SQL's NULL, [VInt] an integer
    (pandas [int64], SQLite INTEGER), [VReal] a finite float (pandas
    [float64], SQLite REAL) given by the rational it denotes, [VText] a
    string (pandas [object], SQLite TEXT). *)
Inductive value :=
  | VNull
  | VInt (z : Z)
  | VReal (q : Qc)
  | VText (s : string).

#[global] Instance value_eq_dec : EqDecision value.
Proof. solve_decision. Defined.

Definition row := list value.

(** A pandas [DataFrame]: the column labels and the rows, each row holding
    one cell per column.  A table of the database is the frame [to_sql]
    wrote. *)
Record DataFrame := {
  columns : list string;
  rows : list row
}.

#[global] Instance DataFrame_eq_dec : EqDecision DataFrame.
Proof. solve_decision. Defined.

(** [len(df)], [len(df.columns)] and [df.empty] (some axis has length 0). *)
Definition df_len (df : DataFrame) : nat := length (rows df).
Definition df_width (df : DataFrame) : nat := length (columns df).
Definition df_empty (df : DataFrame) : bool :=
  bool_decide (df_len df = 0%nat) || bool_decide (df_width df = 0%nat).

(** Position of a label in a list of labels (first occurrence). *)
Fixpoint label_index (same : string → string → bool) (col : string)
    (cols : list string) : option nat :=
  match cols with
  | [] => None
  | c :: cols' =>
      if same c col then Some 0%nat
      else S <$> label_index same col cols'
  end.

Definition cell (r : row) (i : nat) : value := default VNull (r !! i).

(** [df[col]] as the list of the column's cells. *)
Definition df_column (df : DataFrame) (col : string) : option (list value) :=
  i ← label_index String.eqb col (columns df);
  Some ((λ r, cell r i) <$> rows df).

(** ** SQLite's comparison of values *)
Module Sql.

(** The number a numeric value denotes. *)
Definition numeric (v : value) : option Qc :=
  match v with
  | VInt z => Some (Qc_of_Z z)
  | VReal q => Some q
  | _ => None
  end.

(** The order SQLite sorts by: NULL first, then numbers by value (an
    INTEGER and a REAL compare numerically), then text by its bytes.  Values
    are compared as they are stored: the column of a numeric pandas dtype
    stores numbers and NULLs only; the conversion to text that SQLite
    applies to a number compared with a column declared TEXT is not
    modelled. *)
Definition compare (a b : value) : comparison :=
  match a, b with
  | VNull, VNull => Eq
  | VNull, _ => Lt
  | _, VNull => Gt
  | VText s, VText t => String_as_OT.compare s t
  | VText _, _ => Gt
  | _, VText _ => Lt
  | _, _ =>
      match numeric a, numeric b with
      | Some x, Some y => (x ?= y)%Qc
      | _, _ => Eq
      end
  end.

Definition le (a b : value) : Prop := compare a b ≠ Gt.
Definition ge (a b : value) : Prop := le b a.

#[global] Instance le_dec : RelDecision le.
Proof. intros a b. unfold le. apply _. Defined.
#[global] Instance ge_dec : RelDecision ge.
Proof. intros a b. unfold ge. apply _. Defined.

(** A comparison operator of an expression: NULL when an operand is NULL
    ([None] here), else decided by the order above. *)
Definition cmp_op (test : comparison → bool) (a b : value) : option bool :=
  match a, b with
  | VNull, _ | _, VNull => None
  | _, _ => Some (test (compare a b))
  end.

(** [a = b] and [a >= b]. *)
Definition eq_op : value → value → option bool :=
  cmp_op (λ c, if c is Eq then true else false).
Definition ge_op : value → value → option bool :=
  cmp_op (λ c, if c is Lt then false else true).

(** SQLite resolves a column name without regard to ASCII case. *)
Definition lower_ascii (c : ascii) : ascii :=
  let n := nat_of_ascii c in
  if ((65 <=? n) && (n <=? 90))%nat then ascii_of_nat (n + 32) else c.

Fixpoint lower (s : string) : string :=
  match s with
  | EmptyString => EmptyString
  | String c s' => String (lower_ascii c) (lower s')
  end.

Definition same_name (a b : string) : bool := String.eqb (lower a) (lower b).

Definition column_index (col : string) (t : DataFrame) : option nat :=
  label_index same_name col (columns t).

(** [WHERE p]: the rows on which [p] is true; a row on which it is NULL
    or false is dropped. *)
Definition where_ (p : row → option bool) (rs : list row) : list row :=
  filter (λ r, p r = Some true) rs.

(** [ORDER BY col DESC] on the column at position [i].  SQLite leaves the
    order of rows with equal keys open; the model takes a stable merge
    sort. *)
Definition desc (i : nat) (r1 r2 : row) : Prop := ge (cell r1 i) (cell r2 i).

#[global] Instance desc_dec i : RelDecision (desc i).
Proof. intros r1 r2. unfold desc. apply _. Defined.

Definition order_by_desc (i : nat) (rs : list row) : list row :=
  merge_sort (desc i) rs.

(** [LIMIT n]: the first [n] rows; a negative [n] is no limit. *)
Definition limit (n : Z) (rs : list row) : list row :=
  if bool_decide (n < 0) then rs else take (Z.to_nat n) rs.

(** [CASE WHEN c THEN 1 ELSE 0 END]: 1 when [c] is true, 0 when it is
    false or NULL. *)
Definition case_1_0 (c : option bool) : Z :=
  if c is Some true then 1 else 0.

(** [COUNT( * )] and [SUM(e)] for an integer expression [e] that is never
    NULL: the sum over no row at all is NULL. *)
Definition count (rs : list row) : value := VInt (Z.of_nat (length rs)).

Definition sum (e : row → Z) (rs : list row) : value :=
  match rs with
  | [] => VNull
  | _ => VInt (foldr (λ r acc, e r + acc) 0 rs)
  end.

End Sql.

(** ** Exceptions and the kinds the specification sorts them into *)
Inductive exn :=
  | FileNotFoundError (msg : string)
  | ValueError (msg : string)
  | TypeError (msg : string)
  | KeyError (key : string)
  | AttributeError (msg : string)
  | IndexError (msg : string)
  | PermissionError (path : string)
  | SqliteError (msg : string)      (* [sqlite3.Error] and its subclasses *)
  | DatabaseError (msg : string).   (* [pandas.errors.DatabaseError] *)

Inductive kind := NotFound | Validation | Query | IO | Unexpected.

Definition kind_of (e : exn) : kind :=
  match e with
  | FileNotFoundError _ => NotFound
  | ValueError _ => Validation
  | SqliteError _ | DatabaseError _ => Query
  | PermissionError _ => IO
  | TypeError _ | KeyError _ | AttributeError _ | IndexError _ => Unexpected
  end.

Inductive result (A : Type) :=
  | Ok (a : A)
  | Raise (e : exn).
Arguments Ok {A} a.
Arguments Raise {A} e.

#[global] Instance result_ret : MRet result := λ A a, Ok a.
#[global] Instance result_bind : MBind result := λ A B f r,
  match r with
  | Ok a => f a
  | Raise e => Raise e
  end.
#[global] Instance result_fmap : FMap result := λ A B f r,
  match r with
  | Ok a => Ok (f a)
  | Raise e => Raise e
  end.

(** ** JSON documents, as [json.load] returns them *)
#[local] Unset Elimination Schemes.
Inductive json :=
  | JNull
  | JBool (b : bool)
  | JNum (z : Z)
  | JStr (s : string)
  | JArr (items : list json)
  | JObj (fields : list (string * json)).
#[local] Set Elimination Schemes.

(** [d[k]] and [d[k] = v] on the fields of an object (a Python [dict]
    keeps a key at the place it was first inserted). *)
Fixpoint obj_get (k : string) (fields : list (string * json)) : option json :=
  match fields with
  | [] => None
  | (k', v) :: rest => if String.eqb k' k then Some v else obj_get k rest
  end.

Fixpoint obj_set (k : string) (v : json) (fields : list (string * json))
    : list (string * json) :=
  match fields with
  | [] => [(k, v)]
  | (k', v') :: rest =>
      if String.eqb k' k then (k, v) :: rest else (k', v') :: obj_set k v rest
  end.

(** ** The world: files, database files, clock and what was done *)

(** A file holds a delimited table (given by the frame [pandas.read_csv]
    makes of it) or a JSON document. *)
Inductive file :=
  | CsvFile (df : DataFrame)
  | JsonFile (doc : json).

(** A line printed to the console: the fixed text of the message and, for
    a warning or an error, the exception it reports. *)
Inductive log_line :=
  | Progress (text : string)
  | Warning (text : string) (e : exn)
  | Failure (text : string) (e : exn).

(** What the program did to the outside, newest first in [trace]. *)
Inductive event :=
  | Printed (line : log_line)
  | PathExists (p : string)
  | ReadFile (p : string)
  | WriteFile (p : string)
  | ClockRead
  | DbSelect (db : string)
  | DbReplace (db table : string)
  | DbCreateIndex (db index : string).

Record world := {
  files : gmap string file;
  (** paths that cannot be created or written (permissions, a missing
      directory, a full disk); a database file among them rejects writes *)
  readonly : gset string;
  (** the tables of each SQLite database file, by the file's path *)
  databases : gmap string (gmap string DataFrame);
  (** ticks of the wall clock *)
  clock : nat;
  trace : list event
}.

Definition set_files (f : gmap string file) (w : world) : world :=
  {| files := f; readonly := readonly w; databases := databases w;
     clock := clock w; trace := trace w |}.
Definition set_databases (d : gmap string (gmap string DataFrame)) (w : world)
    : world :=
  {| files := files w; readonly := readonly w; databases := d;
     clock := clock w; trace := trace w |}.
Definition set_clock (c : nat) (w : world) : world :=
  {| files := files w; readonly := readonly w; databases := databases w;
     clock := c; trace := trace w |}.
Definition log (ev : event) (w : world) : world :=
  {| files := files w; readonly := readonly w; databases := databases w;
     clock := clock w; trace := ev :: trace w |}.

(** The database at a path; a file that does not exist yet is an empty
    database ([sqlite3.connect] creates it). *)
Definition db_at (w : world) (p : string) : gmap string DataFrame :=
  default ∅ (databases w !! p).

(** ** Computations: a state and exception monad over the world

    An exception leaves the world as it was when it was raised: nothing is
    rolled back. *)
Definition M (A : Type) : Type := world → result A * world.

#[global] Instance M_ret : MRet M := λ A a w, (Ok a, w).
#[global] Instance M_bind : MBind M := λ A B f m w,
  match m w with
  | (Ok a, w') => f a w'
  | (Raise e, w') => (Raise e, w')
  end.

Definition raise {A} (e : exn) : M A := λ w, (Raise e, w).

(** [try: m  except Exception as e: h e]. *)
Definition try_except {A} (m : M A) (h : exn → M A) : M A := λ w,
  match m w with
  | (Ok a, w') => (Ok a, w')
  | (Raise e, w') => h e w'
  end.

Definition lift {A} (r : result A) : M A := λ w, (r, w).
Definition emit (ev : event) : M unit := λ w, (Ok (), log ev w).
Definition print (l : log_line) : M unit := emit (Printed l).

(** *** File system *)

(** [Path(p).exists()]. *)
Definition path_exists (p : string) : M bool := λ w,
  (Ok (bool_decide (is_Some (files w !! p))), log (PathExists p) w).

Definition read_file (p : string) : M file := λ w,
  match files w !! p with
  | Some f => (Ok f, log (ReadFile p) w)
  | None => (Raise (FileNotFoundError p), log (ReadFile p) w)
  end.

(** [open(p, 'w')] and writing the whole content. *)
Definition write_file (p : string) (f : file) : M unit := λ w,
  if bool_decide (p ∈ readonly w) then (Raise (PermissionError p), w)
  else (Ok (), log (WriteFile p) (set_files (<[p := f]> (files w)) w)).

(** [pd.read_csv(p)]; the parser errors of pandas are [ValueError]s. *)
Definition read_csv (p : string) : M DataFrame :=
  f ← read_file p;
  match f with
  | CsvFile df => mret df
  | JsonFile _ => raise (ValueError "Error tokenizing data")
  end.

(** [df.to_csv(p, index=False)]. *)
Definition to_csv (df : DataFrame) (p : string) : M unit :=
  write_file p (CsvFile df).

(** [json.load] of an open file; [JSONDecodeError] is a [ValueError]. *)
Definition json_load (p : string) : M json :=
  f ← read_file p;
  match f with
  | JsonFile doc => mret doc
  | CsvFile _ => raise (ValueError "Expecting value")
  end.

Definition json_dump (doc : json) (p : string) : M unit :=
  write_file p (JsonFile doc).

(** [datetime.now()]: the clock's reading; time moves on. *)
Definition datetime_now : M nat := λ w,
  (Ok (clock w), log ClockRead (set_clock (S (clock w)) w)).

(** *** SQLite *)

(** A SELECT statement is the function from the tables of the database to
    its result set, or to the error SQLite reports. *)
Definition select := gmap string DataFrame → result DataFrame.

(** [pd.read_sql_query(q, conn)] on a fresh connection to [db]. *)
Definition read_sql_query (q : select) (db : string) : M DataFrame := λ w,
  (q (db_at w db), log (DbSelect db) w).

(** [df.to_sql(table, conn, if_exists='replace', index=False)]: the old
    table is dropped and a table with the frame's columns and rows is
    created.  SQLite refuses a write to a read-only file, and two column
    names that differ only by case; in the second case the old table is
    already dropped. *)
Definition to_sql (df : DataFrame) (table db : string) : M unit := λ w,
  if bool_decide (db ∈ readonly w) then
    (Raise (DatabaseError "attempt to write a readonly database"), w)
  else if bool_decide (NoDup (Sql.lower <$> columns df)) then
    (Ok (), log (DbReplace db table)
              (set_databases (<[db := <[table := df]> (db_at w db)]> (databases w)) w))
  else
    (Raise (DatabaseError "duplicate column name"),
     log (DbReplace db table)
       (set_databases (<[db := delete table (db_at w db)]> (databases w)) w)).

(** [CREATE INDEX IF NOT EXISTS index ON table(col)]. *)
Definition create_index (index table col db : string) : M unit := λ w,
  if bool_decide (db ∈ readonly w) then
    (Raise (SqliteError "attempt to write a readonly database"), w)
  else
    match db_at w db !! table with
    | None => (Raise (SqliteError "no such table"), w)
    | Some t =>
        match Sql.column_index col t with
        | None => (Raise (SqliteError "no such column"), w)
        | Some _ => (Ok (), log (DbCreateIndex db index) w)
        end
    end.

(** *** The SELECT statements the program sends *)
Module Select.

(** [FROM table]: the statement fails when the table does not exist.
    pandas reports a failure of SQLite as its own [DatabaseError]. *)
Definition from (table : string) (body : DataFrame → result DataFrame)
    : select := λ db,
  match db !! table with
  | Some t => body t
  | None => Raise (DatabaseError "no such table")
  end.

Definition column (col : string) (t : DataFrame) : result nat :=
  match Sql.column_index col t with
  | Some i => Ok i
  | None => Raise (DatabaseError "no such column")
  end.

(** [SELECT * FROM table WHERE col = z]. *)
Definition all_where_eq (table col : string) (z : Z) : select :=
  from table (λ t,
    i ← column col t;
    Ok {| columns := columns t;
          rows := Sql.where_ (λ r, Sql.eq_op (cell r i) (VInt z)) (rows t) |}).

(** [SELECT * FROM table WHERE col >= x ORDER BY col DESC]. *)
Definition all_where_ge_desc (table col : string) (x : value) : select :=
  from table (λ t,
    i ← column col t;
    Ok {| columns := columns t;
          rows := Sql.order_by_desc i
                    (Sql.where_ (λ r, Sql.ge_op (cell r i) x) (rows t)) |}).

(** A statement with [LIMIT n] appended to its text. *)
Definition with_limit (n : Z) (q : select) : select := λ db,
  df ← q db;
  Ok {| columns := columns df; rows := Sql.limit n (rows df) |}.

(** [SELECT COUNT( * ) as total,
           SUM(CASE WHEN Class = 1 THEN 1 ELSE 0 END) as fraud,
           SUM(CASE WHEN Class = 0 THEN 1 ELSE 0 END) as legitimate
    FROM raw_transactions]: one row. *)
Definition counts_by_class : select :=
  from "raw_transactions" (λ t,
    i ← column "Class" t;
    let is_class z r := Sql.case_1_0 (Sql.eq_op (cell r i) (VInt z)) in
    Ok {| columns := ["total"; "fraud"; "legitimate"];
          rows := [[Sql.count (rows t);
                    Sql.sum (is_class 1) (rows t);
                    Sql.sum (is_class 0) (rows t)]] |}).

End Select.

(** ** Python values the helpers compute with *)

(** A Python number: an [int], or a [float] given by the rational it
    denotes (the rounding of binary floating point is left out). *)
Inductive pynum :=
  | PyInt (z : Z)
  | PyFloat (q : Qc).

Definition pynum_value (x : pynum) : Qc :=
  match x with
  | PyInt z => Qc_of_Z z
  | PyFloat q => q
  end.

(** A number interpolated into a query text is a numeric literal. *)
Definition literal (x : pynum) : value :=
  match x with
  | PyInt z => VInt z
  | PyFloat q => VReal q
  end.

(** [result[col]] of a frame: [KeyError] when there is no such column. *)
Definition getitem (df : DataFrame) (col : string) : result (list value) :=
  match df_column df col with
  | Some cells => Ok cells
  | None => Raise (KeyError col)
  end.

(** [series.iloc[0]]. *)
Definition iloc0 (cells : list value) : result value :=
  match cells with
  | v :: _ => Ok v
  | [] => Raise (IndexError "single positional indexer is out-of-bounds")
  end.

(** [int(x)]: [None] is a [TypeError]; a float is truncated towards zero.
    (Text never comes out of COUNT or SUM; [int] of a numeral string is not
    modelled and counted as the [ValueError] of any other string.) *)
Definition py_int (v : value) : result Z :=
  match v with
  | VNull => Raise (TypeError "int() argument must be a string, a bytes-like object or a real number, not 'NoneType'")
  | VInt z => Ok z
  | VReal q => Ok (Z.quot (Qnum q) (Z.pos (Qden q)))
  | VText _ => Raise (ValueError "invalid literal for int() with base 10")
  end.

(** [int(result[col].iloc[0])]. *)
Definition first_as_int (df : DataFrame) (col : string) : result Z :=
  cells ← getitem df col;
  v ← iloc0 cells;
  py_int v.

(** Nearest integer, ties to even. *)
Definition round_half_even (q : Qc) : Z :=
  let n := Qnum q in
  let d := Z.pos (Qden q) in
  let f := n `div` d in
  let r := n `mod` d in
  match 2 * r ?= d with
  | Lt => f
  | Gt => f + 1
  | Eq => if Z.even f then f else f + 1
  end.

(** [round(x, 3)]: an [int] is returned as it is. *)
Definition round3 (x : pynum) : pynum :=
  match x with
  | PyInt z => PyInt z
  | PyFloat q =>
      PyFloat (Qc_of_Z (round_half_even (q * Qc_of_Z 1000)) / Qc_of_Z 1000)%Qc
  end.

(** ** The storage manager *)

Record DataStorageManager := { project_root : string }.

(** [Path / name]. *)
Definition joinpath (a b : string) : string := a +:+ "/" +:+ b.
Infix "//" := joinpath (at level 40, left associativity).

Definition db_path (self : DataStorageManager) : string :=
  project_root self // "database" // "fraud_detection.db".

Definition is_sqlite_error (e : exn) : bool :=
  if e is SqliteError _ then true else false.

(** [except Exception as e: print(text); raise]. *)
Definition reraise_logged {A} (text : string) (e : exn) : M A :=
  print (Failure text e);; raise e.

(** pandas reports what SQLite refuses as its own [DatabaseError], which
    is no [sqlite3.Error]: it is the second handler that meets it. *)
Definition query_data (self : DataStorageManager) (sql_query : select)
    : M DataFrame :=
  try_except
    (read_sql_query sql_query (db_path self))
    (λ e,
      if is_sqlite_error e then
        print (Failure "SQL Query Error" e);; print (Progress "Query");; raise e
      else reraise_logged "Error executing query" e).

(** [if limit: query += f" LIMIT {limit}"]: [None] and [0] are false. *)
Definition append_limit (limit : option Z) (query : select) : select :=
  match limit with
  | Some n => if bool_decide (n ≠ 0) then Select.with_limit n query else query
  | None => query
  end.

Definition get_fraud_transactions (self : DataStorageManager)
    (limit : option Z) : M DataFrame :=
  try_except
    (let query := Select.all_where_eq "raw_transactions" "Class" 1 in
     let query := append_limit limit query in
     query_data self query)
    (reraise_logged "Error retrieving fraud transactions").

Definition get_legitimate_transactions (self : DataStorageManager)
    (limit : option Z) : M DataFrame :=
  try_except
    (let query := Select.all_where_eq "raw_transactions" "Class" 0 in
     let query := append_limit limit query in
     query_data self query)
    (reraise_logged "Error retrieving legitimate transactions").

(** The [dict] that [get_transaction_count] returns, by its keys. *)
Module counts.
Record t := {
  total : Z;
  fraud : Z;
  legitimate : Z;
  fraud_rate : pynum
}.
End counts.

Definition get_transaction_count (self : DataStorageManager) : M counts.t :=
  try_except
    (result ← query_data self Select.counts_by_class;
     total ← lift (first_as_int result "total");
     fraud ← lift (first_as_int result "fraud");
     legitimate ← lift (first_as_int result "legitimate");
     let fraud_rate :=
       if bool_decide (total > 0)
       then PyFloat (Qc_of_Z fraud / Qc_of_Z total * Qc_of_Z 100)%Qc
       else PyInt 0 in
     mret {| counts.total := total; counts.fraud := fraud;
             counts.legitimate := legitimate;
             counts.fraud_rate := round3 fraud_rate |})
    (reraise_logged "Error getting transaction count").

Definition get_high_value_transactions (self : DataStorageManager)
    (amount_threshold : pynum) (limit : option Z) : M DataFrame :=
  try_except
    (let query := Select.all_where_ge_desc "raw_transactions" "Amount"
                    (literal amount_threshold) in
     let query := append_limit limit query in
     query_data self query)
    (reraise_logged "Error retrieving high-value transactions").


(** ** Ingestion *)

(** The library functions whose results the manager only passes along. *)
Class Library := {
  (** [pd.util.hash_pandas_object(df).values]: one unsigned 64-bit hash for
      each row, or the exception pandas raises *)
  hash_pandas_object : DataFrame → result (list Z);
  (** [hashlib.sha256(data).hexdigest()] *)
  sha256_hexdigest : list Byte.byte → string;
  (** [t.isoformat()] of a reading of the clock *)
  isoformat : nat → string
}.

(** [array.tobytes()] of unsigned 64-bit numbers: eight bytes each, the low
    byte first. *)
Fixpoint le_bytes (n : nat) (z : Z) : list Byte.byte :=
  match n with
  | O => []
  | S n' =>
      default Byte.x00 (Byte.of_N (Z.to_N (z `mod` 256)))
        :: le_bytes n' (z `div` 256)
  end.

Definition tobytes (hashes : list Z) : list Byte.byte :=
  hashes ≫= le_bytes 8.

(** [repr] of a list of strings without quotes or escapes in them. *)
Definition repr_list (l : list string) : string :=
  "[" +:+ String.concat ", " ((λ s, "'" +:+ s +:+ "'") <$> l) +:+ "]".

(** [series.mean()]: NaN cells are skipped, the mean of no number is NaN
    ([None] here), and text cannot be averaged. *)
Definition is_text (v : value) : bool :=
  if v is VText _ then true else false.

Definition series_mean (cells : list value) : result (option Qc) :=
  if existsb is_text cells then
    Raise (TypeError "Could not convert string to numeric")
  else
    match omap Sql.numeric cells with
    | [] => Ok None
    | xs => Ok (Some (foldr Qcplus (Qc_of_Z 0) xs
                        / Qc_of_Z (Z.of_nat (length xs)))%Qc)
    end.

(** [registry['datasets'].append(entry)]. *)
Definition append_dataset (registry entry : json) : result json :=
  match registry with
  | JObj fields =>
      match obj_get "datasets" fields with
      | None => Raise (KeyError "datasets")
      | Some (JArr items) =>
          Ok (JObj (obj_set "datasets" (JArr (items ++ [entry])) fields))
      | Some _ => Raise (AttributeError "object has no attribute 'append'")
      end
  | JArr _ => Raise (TypeError "list indices must be integers or slices, not str")
  | JStr _ => Raise (TypeError "string indices must be integers")
  | _ => Raise (TypeError "object is not subscriptable")
  end.

(** [{'timestamp': t, **kwargs}]. *)
Definition entry_dict (t : string) (kwargs : list (string * json)) : json :=
  JObj (foldl (λ d kv, obj_set kv.1 kv.2 d) [("timestamp", JStr t)] kwargs).

(** The columns [load_raw_data] asks for, and those of them a frame lacks:
    [[col for col in expected_cols if col not in df.columns]]. *)
Definition expected_cols : list string := ["Time"; "Amount"; "Class"].

Definition missing_cols (df : DataFrame) : list string :=
  filter (λ col, col ∉ columns df) expected_cols.

(** The keyword arguments [load_raw_data] passes to [_record_metadata]. *)
Definition metadata_kwargs (dataset_name data_hash : string)
    (row_count column_count : nat) (file_path : string)
    : list (string * json) :=
  [("dataset_name", JStr dataset_name);
   ("data_hash", JStr data_hash);
   ("row_count", JNum (Z.of_nat row_count));
   ("column_count", JNum (Z.of_nat column_count));
   ("file_path", JStr file_path)].

Section manager.
Context `{Library}.

Definition _calculate_data_hash (df : DataFrame) : M string :=
  try_except
    (hashes ← lift (hash_pandas_object df);
     let data_string := tobytes hashes in
     mret (sha256_hexdigest data_string))
    (λ e,
      print (Warning "Could not calculate data hash" e);;
      mret "hash_unavailable").

Definition _save_to_sqlite (self : DataStorageManager) (df : DataFrame)
    (table_name : string) : M unit :=
  try_except
    (let conn := db_path self in
     to_sql df table_name conn;;
     (if String.eqb table_name "raw_transactions" then
        create_index "idx_class" "raw_transactions" "Class" conn;;
        create_index "idx_time" "raw_transactions" "Time" conn;;
        create_index "idx_amount" "raw_transactions" "Amount" conn
      else mret ());;
     print (Progress "Data saved to SQLite table"))
    (λ e,
      if is_sqlite_error e then reraise_logged "Database Error" e
      else reraise_logged "Error saving to SQLite" e).

Definition metadata_path (self : DataStorageManager) : string :=
  project_root self // "metadata" // "data_registry.json".

(** The [try] block of [_record_metadata]: read the registry or start a
    new one, append the entry, write the registry back. *)
Definition append_to_registry (self : DataStorageManager)
    (kwargs : list (string * json)) : M unit :=
  let metadata_path := metadata_path self in
  present ← path_exists metadata_path;
  registry ← (if present : bool then json_load metadata_path
              else mret (JObj [("datasets", JArr [])]));
  now ← datetime_now;
  let entry := entry_dict (isoformat now) kwargs in
  registry ← lift (append_dataset registry entry);
  json_dump registry metadata_path;;
  print (Progress "Metadata recorded").

Definition _record_metadata (self : DataStorageManager)
    (kwargs : list (string * json)) : M unit :=
  try_except
    (append_to_registry self kwargs)
    (λ e,
      (* no raise: a failure to record metadata does not stop the pipeline *)
      print (Warning "Could not record metadata" e)).

Definition raw_output_path (self : DataStorageManager) (dataset_name : string)
    : string :=
  project_root self // "data" // "raw" // (dataset_name +:+ ".csv").

Definition load_raw_data (self : DataStorageManager)
    (csv_path dataset_name : string) : M DataFrame :=
  try_except
    (print (Progress "Loading data from");;
     present ← path_exists csv_path;
     (if present : bool then mret ()
      else raise (FileNotFoundError ("CSV file not found: " +:+ csv_path)));;
     df ← read_csv csv_path;
     (if df_empty df then raise (ValueError "CSV file is empty")
      else mret ());;
     let missing_cols := missing_cols df in
     (if bool_decide (missing_cols = []) then mret ()
      else raise (ValueError ("Missing required columns: "
                                +:+ repr_list missing_cols)));;
     print (Progress "Data loaded");;
     data_hash ← _calculate_data_hash df;
     let raw_output_path := raw_output_path self dataset_name in
     to_csv df raw_output_path;;
     print (Progress "Raw data saved to");;
     _save_to_sqlite self df "raw_transactions";;
     _record_metadata self
       (metadata_kwargs dataset_name data_hash (df_len df) (df_width df)
          raw_output_path);;
     _ ← lift (getitem df "Class" ≫= series_mean);
     print (Progress "Fraud rate");;
     mret df)
    (λ e,
      match e with
      | FileNotFoundError _ => reraise_logged "File Error" e
      | ValueError _ => reraise_logged "Validation Error" e
      | _ => reraise_logged "Unexpected error loading data" e
      end).

Definition save_processed_data (self : DataStorageManager) (df : DataFrame)
    (stage_name : string) : M string :=
  try_except
    (let output_path :=
       project_root self // "data" // "processed" // (stage_name +:+ ".csv") in
     to_csv df output_path;;
     _save_to_sqlite self df ("processed_" +:+ stage_name);;
     print (Progress "Processed data saved");;
     mret output_path)
    (reraise_logged "Error saving processed data").

End manager.

(** ** Vocabulary of the statements *)

(** The rows a helper returns when its statement without LIMIT selects
    [rs]. *)
Definition capped (limit : option Z) (rs : list row) : list row :=
  match limit with
  | Some n => if bool_decide (n ≠ 0) then Sql.limit n rs else rs
  | None => rs
  end.


(** The row [r] has class [z]: [Class = z] is true on it. *)
Definition of_class (i : nat) (z : Z) (r : row) : Prop :=
  Sql.eq_op (cell r i) (VInt z) = Some true.

#[global] Instance of_class_dec i z r : Decision (of_class i z r).
Proof. unfold of_class. apply _. Defined.

(** The rows [WHERE Class = z] selects. *)
Definition class_rows (t : DataFrame) (i : nat) (z : Z) : list row :=
  filter (of_class i z) (rows t).

(** The hash [_calculate_data_hash] computes for a frame. *)
Definition data_hash `{Library} (df : DataFrame) : string :=
  match hash_pandas_object df with
  | Ok hashes => sha256_hexdigest (tobytes hashes)
  | Raise _ => "hash_unavailable"
  end.

(** The entries of the metadata registry in a world: none when the file
    does not exist yet; [None] when the file is no registry (no JSON
    object, or one without a list under [datasets]). *)
Definition registry_entries (self : DataStorageManager) (w : world)
    : option (list json) :=
  match files w !! metadata_path self with
  | None => Some []
  | Some (JsonFile (JObj fields)) =>
      match obj_get "datasets" fields with
      | Some (JArr items) => Some items
      | _ => None
      end
  | Some _ => None
  end.

(** The entry an ingest of [df] under [name] at clock reading [t]
    appends. *)
Definition registry_entry `{Library} (self : DataStorageManager)
    (name : string) (df : DataFrame) (t : nat) : json :=
  entry_dict (isoformat t)
    (metadata_kwargs name (data_hash df) (df_len df) (df_width df)
       (raw_output_path self name)).

(** The fraud rate [load_raw_data] prints last can be computed. *)
Definition fraud_rate_computable (df : DataFrame) : Prop :=
  ∃ mean, getitem df "Class" ≫= series_mean = Ok mean.

(** Two worlds with the same files, databases, permissions and clock:
    they differ by what was printed and recorded in the trace at most. *)
Definition same_store (w w' : world) : Prop :=
  files w' = files w ∧ databases w' = databases w ∧
  readonly w' = readonly w ∧ clock w' = clock w.

(** A computation raises only exceptions with the property [P]. *)
Definition raises {A} (P : exn → Prop) (m : M A) : Prop :=
  ∀ w e w', m w = (Raise e, w') → P e.

(** A handler that prints and raises the exception again. *)
Definition reraises {A} (h : exn → M A) : Prop :=
  ∀ e w, ∃ w', h e w = (Raise e, w') ∧ same_store w w'.

(** Two frames that differ in one cell: the same columns, the same rows but
    one, and in that row the same cells but one. *)
Definition differ_in_one_cell (df1 df2 : DataFrame) : Prop :=
  columns df1 = columns df2 ∧
  ∃ (above below : list row) (left right : list value) (x y : value),
    x ≠ y ∧
    rows df1 = above ++ [left ++ [x] ++ right] ++ below ∧
    rows df2 = above ++ [left ++ [y] ++ right] ++ below.

(** The strings of [n] characters taken from an alphabet, as a predicate
    and as a list. *)
Fixpoint made_of (alphabet : list ascii) (n : nat) (s : string) : Prop :=
  match n, s with
  | O, EmptyString => True
  | S n', String c s' => c ∈ alphabet ∧ made_of alphabet n' s'
  | _, _ => False
  end.

Fixpoint words (alphabet : list ascii) (n : nat) : list string :=
  match n with
  | O => [EmptyString]
  | S n' => c ← alphabet; String c <$> words alphabet n'
  end.

(** What [hexdigest()] of SHA-256 returns: 64 hexadecimal digits. *)
Definition hex_digits : list ascii := list_ascii_of_string "0123456789abcdef".

Definition is_hexdigest (s : string) : Prop := made_of hex_digits 64 s.

(** A table of one transaction with a memo, and sixteen letters to write
    memos with: a word of these letters is no number, no boolean and no
    marker of a missing value, so [read_csv] keeps it as text. *)
Definition memo_table (memo : string) : DataFrame :=
  {| columns := ["Time"; "Amount"; "Class"; "Memo"];
     rows := [[VInt 0; VInt 100; VInt 0; VText memo]] |}.

Definition memo_letters : list ascii := list_ascii_of_string "ghijklmopqrstuvw".

(** The last character of a path. *)
Fixpoint last_char (s : string) : option ascii :=
  match s with
  | EmptyString => None
  | String c EmptyString => Some c
  | String _ s' => last_char s'
  end.

(** ** Sample inputs *)

Definition sample_manager : DataStorageManager :=
  {| project_root := "fraud_detection_project" |}.

Definition sample_columns : list string := ["Time"; "Amount"; "Class"].

(** A transaction with integer cells. *)
Definition tx (time amount class : Z) : row :=
  [VInt time; VInt amount; VInt class].

Definition sample_table (rs : list row) : DataFrame :=
  {| columns := sample_columns; rows := rs |}.

(** A world with nothing but the manager's database, holding the
    transactions table [t]. *)
Definition world_with_table (t : DataFrame) : world :=
  {| files := ∅; readonly := ∅;
     databases := {[ db_path sample_manager := {[ "raw_transactions" := t ]} ]};
     clock := 0; trace := [] |}.

(** Stand-ins for the library functions, to run the manager on the sample
    inputs: the number of cells as the hash of a row, one fixed digest, one
    fixed reading of the clock.  Nothing proved about the manager depends
    on them. *)
Definition sample_library : Library :=
  {| hash_pandas_object df := Ok ((λ r : row, Z.of_nat (length r)) <$> rows df);
     sha256_hexdigest data :=
       "9f86d081884c7d659a2feaa0c55ad015a3bf4f1b2b0b822cd15d6c15b0f00a08";
     isoformat t := "2013-09-01T00:00:00" |}.

(** A world with the given files, nothing read-only and no database. *)
Definition world_with_files (fs : gmap string file) : world :=
  {| files := fs; readonly := ∅; databases := ∅; clock := 0; trace := [] |}.

Definition card_table : DataFrame :=
  sample_table [tx 0 150 0; tx 406 2500 1; tx 407 1 0].

(** The same table with the amount column spelt in lower case. *)
Definition lowercase_amount_table : DataFrame :=
  {| columns := ["Time"; "amount"; "Class"];
     rows := [tx 0 150 0; tx 406 2500 1] |}.


(** A registry file that holds the JSON object with no key at all. *)
Definition empty_object_registry : gmap string file :=
  {[ metadata_path sample_manager := JsonFile (JObj []) ]}.

(** Six transactions, four of them of amount 1000 or more. *)
Definition six_transactions : list row :=
  [tx 0 150 0; tx 1 2500 1; tx 2 1000 0; tx 3 999 0; tx 4 7000 0; tx 5 1200 1].

(** ** The time-range helper *)
Module Range.



(** [ORDER BY col] on the column at position [i]: ascending. *)
Definition asc (i : nat) (r1 r2 : row) : Prop := Sql.le (cell r1 i) (cell r2 i).

#[global] Instance asc_dec i : RelDecision (asc i).
Proof. intros r1 r2. unfold asc. apply _. Defined.




End Range.


(** ** More vocabulary and sample inputs *)


(** The path [save_processed_data] writes a stage to, and the table it
    fills. *)
Definition processed_path (self : DataStorageManager) (stage_name : string)
    : string :=
  project_root self // "data" // "processed" // (stage_name +:+ ".csv").

Definition processed_table (stage_name : string) : string :=
  "processed_" +:+ stage_name.

(** A world whose files are [fs], with the paths [ro] read-only and no
    database yet. *)
Definition world_with_readonly (fs : gmap string file) (ro : gset string)
    : world :=
  {| files := fs; readonly := ro; databases := ∅; clock := 0; trace := [] |}.



(** [entry[k]] of a registry entry. *)
Definition entry_field (k : string) (entry : json) : option json :=
  match entry with
  | JObj fields => obj_get k fields
  | _ => None
  end.

(** The keys of a registry entry, in the order they are written. *)
Definition entry_keys (entry : json) : list string :=
  match entry with
  | JObj fields => fst <$> fields
  | _ => []
  end.

(** A computation keeps the relation [P] between the world it starts in
    and the world it ends in, whatever it returns or raises. *)
Definition keeps {A} (P : world → world → Prop) (m : M A) : Prop :=
  ∀ w r w', m w = (r, w') → P w w'.

(** What may differ between two worlds when only the files [paths] and
    the table [table] of the database [db] were written: those, the clock
    and the trace, which has grown. *)
Definition wrote_at_most (paths : list string) (db table : string)
    (w w' : world) : Prop :=
  (∀ p, p ∉ paths → files w' !! p = files w !! p) ∧
  (∀ d, d ≠ db → databases w' !! d = databases w !! d) ∧
  (∀ t, t ≠ table → db_at w' db !! t = db_at w db !! t) ∧
  readonly w' = readonly w ∧
  (clock w ≤ clock w')%nat ∧
  trace w `suffix_of` trace w'.


(** * Properties *)

(** ** Running a computation step by step *)

Lemma bind_ok {A B} (m : M A) (f : A → M B) (w w' : world) (a : A) :
  m w = (Ok a, w') → (m ≫= f) w = f a w'.
Proof. intros Hm. unfold mbind, M_bind. by rewrite Hm. Qed.

Lemma bind_raise {A B} (m : M A) (f : A → M B) (w w' : world) (e : exn) :
  m w = (Raise e, w') → (m ≫= f) w = (Raise e, w').
Proof. intros Hm. unfold mbind, M_bind. by rewrite Hm. Qed.

Lemma try_ok {A} (m : M A) (h : exn → M A) (w w' : world) (a : A) :
  m w = (Ok a, w') → try_except m h w = (Ok a, w').
Proof. intros Hm. unfold try_except. by rewrite Hm. Qed.

Lemma try_raise {A} (m : M A) (h : exn → M A) (w w' : world) (e : exn) :
  m w = (Raise e, w') → try_except m h w = h e w'.
Proof. intros Hm. unfold try_except. by rewrite Hm. Qed.

Lemma bind_ok_inv {A B} (m : M A) (f : A → M B) (w w' : world) (b : B) :
  (m ≫= f) w = (Ok b, w') →
  ∃ a w1, m w = (Ok a, w1) ∧ f a w1 = (Ok b, w').
Proof.
  unfold mbind, M_bind. destruct (m w) as [[a|e] w1]; [eauto|done].
Qed.

Lemma bind_raise_inv {A B} (m : M A) (f : A → M B) (w w' : world) (e : exn) :
  (m ≫= f) w = (Raise e, w') →
  m w = (Raise e, w') ∨ ∃ a w1, m w = (Ok a, w1) ∧ f a w1 = (Raise e, w').
Proof.
  unfold mbind, M_bind. destruct (m w) as [[a|e0] w1]; [eauto|].
  intros [= -> ->]. by left.
Qed.

Lemma try_except_ok_inv {A} (m : M A) (h : exn → M A) (w w' : world) (a : A) :
  reraises h → try_except m h w = (Ok a, w') → m w = (Ok a, w').
Proof.
  intros Hh. unfold try_except. destruct (m w) as [[a0|e] w1]; [done|].
  destruct (Hh e w1) as (w2 & -> & _). done.
Qed.

Lemma try_except_raise_inv {A} (m : M A) (h : exn → M A) (w w' : world)
    (e : exn) :
  reraises h → try_except m h w = (Raise e, w') →
  ∃ w0, m w = (Raise e, w0) ∧ same_store w0 w'.
Proof.
  intros Hh. unfold try_except. destruct (m w) as [[a0|e0] w1]; [done|].
  destruct (Hh e0 w1) as (w2 & -> & Hsame). intros [= -> ->]. eauto.
Qed.

Lemma reraise_logged_reraises {A} (text : string) :
  reraises (@reraise_logged A text).
Proof. intros e w. eexists. split; [reflexivity|done]. Qed.


Lemma same_store_log (ev : event) (w : world) : same_store w (log ev w).
Proof. done. Qed.

(** *** What a computation can raise *)

Lemma raises_bind {A B} (P : exn → Prop) (m : M A) (f : A → M B) :
  raises P m → (∀ a, raises P (f a)) → raises P (m ≫= f).
Proof.
  intros Hm Hf w e w' [Hr|(a & w1 & _ & Hr)]%bind_raise_inv.
  - by eapply Hm.
  - by eapply Hf.
Qed.

Lemma raises_mret {A} (P : exn → Prop) (a : A) : raises P (mret a : M A).
Proof. by intros w e w'. Qed.

Lemma raises_print (P : exn → Prop) (l : log_line) : raises P (print l).
Proof. by intros w e w'. Qed.

Lemma raises_lift {A} (P : exn → Prop) (r : result A) :
  (∀ e, r = Raise e → P e) → raises P (lift r).
Proof. intros Hr w e w' [= -> _]. by apply Hr. Qed.

Lemma raises_try_reraise {A} (P : exn → Prop) (m : M A) (h : exn → M A) :
  reraises h → raises P m → raises P (try_except m h).
Proof.
  intros Hh Hm w e w' (w0 & Hr & _)%try_except_raise_inv; [|done].
  by eapply Hm.
Qed.

Lemma raises_weaken {A} (P Q : exn → Prop) (m : M A) :
  (∀ e, P e → Q e) → raises P m → raises Q m.
Proof. intros HPQ Hm w e w' Hr. eapply HPQ, Hm, Hr. Qed.

(** *** The last character of a path *)

Lemma last_char_app (s t : string) :
  t ≠ EmptyString → last_char (s +:+ t) = last_char t.
Proof.
  intros Ht. induction s as [|c s IH]; [done|]. simpl.
  destruct (s +:+ t) eqn:Hst; [|done].
  destruct s, t; done.
Qed.


(** ** The order of SQLite is a total preorder *)
Module SqlFacts.
Import Sql.

Lemma text_lt_irrefl (s : string) : ¬ String_as_OT.lt s s.
Proof. apply (irreflexivity String_as_OT.lt). Qed.




Lemma text_compare_antisym (s t : string) :
  String_as_OT.compare s t = CompOpp (String_as_OT.compare t s).
Proof.
  destruct (String_as_OT.compare_spec s t) as [E1|H1|H1];
    destruct (String_as_OT.compare_spec t s) as [E2|H2|H2];
    try done; exfalso.
  all: try (rewrite E1 in *); try (rewrite E2 in *).
  all: first [ by eapply text_lt_irrefl
             | eapply text_lt_irrefl; etransitivity; eassumption ].
Qed.







(** On numbers the operators are the comparisons of the numbers. *)
Lemma Qc_of_Z_compare (z k : Z) : (Qc_of_Z z ?= Qc_of_Z k)%Qc = (z ?= k)%Z.
Proof.
  unfold Qccompare, Qc_of_Z. simpl. unfold Qcompare. simpl.
  by rewrite !Z.mul_1_r.
Qed.



Lemma eq_op_int (z k : Z) : eq_op (VInt z) (VInt k) = Some true ↔ z = k.
Proof.
  unfold eq_op, cmp_op, compare, numeric. rewrite Qc_of_Z_compare.
  destruct (Z.compare_spec z k); split; intros; try done; lia.
Qed.

Lemma compare_antisym (a b : value) : compare a b = CompOpp (compare b a).
Proof.
  destruct a, b; simpl; try done;
    first [ apply text_compare_antisym
          | unfold Qccompare; by rewrite <-Qcompare_antisym ].
Qed.

(** A row passes [WHERE col >= x] exactly when neither side is NULL and
    its key is not below [x]. *)
Lemma ge_op_true (a x : value) :
  ge_op a x = Some true ↔ a ≠ VNull ∧ x ≠ VNull ∧ ge a x.
Proof.
  unfold ge_op, cmp_op, ge, le. rewrite (compare_antisym x a).
  destruct a, x; simpl; try (split; [done|intros (?&?&?); done]).
  all: match goal with |- context [CompOpp ?c] => destruct c end; simpl;
    (split; [intros ?; split_and!; done | intros (?&?&?); done]).
Qed.

End SqlFacts.

(** ** The query helpers *)
Section query_helpers.
Context (self : DataStorageManager) (w : world).

(** A statement that SQLite answers is answered by [query_data] too, and
    only the SELECT is recorded. *)
Lemma query_data_ok (q : select) (df : DataFrame) :
  q (db_at w (db_path self)) = Ok df →
  query_data self q w = (Ok df, log (DbSelect (db_path self)) w).
Proof.
  intros Hq. unfold query_data, try_except, read_sql_query.
  by rewrite Hq.
Qed.

Lemma helper_ok (text : string) (q : select) (df : DataFrame) :
  q (db_at w (db_path self)) = Ok df →
  try_except (query_data self q) (reraise_logged text) w
  = (Ok df, log (DbSelect (db_path self)) w).
Proof. intros Hq. unfold try_except. by rewrite (query_data_ok q df). Qed.

(** What [LIMIT] is appended, by the three cases of the argument. *)
Lemma append_limit_None (q : select) : append_limit None q = q.
Proof. done. Qed.

Lemma append_limit_zero (q : select) : append_limit (Some 0) q = q.
Proof. done. Qed.

Lemma append_limit_nonzero (n : Z) (q : select) :
  n ≠ 0 → append_limit (Some n) q = Select.with_limit n q.
Proof. intros Hn. unfold append_limit. by rewrite bool_decide_eq_true_2. Qed.



Lemma append_limit_ok (limit : option Z) (q : select) (df : DataFrame) :
  q (db_at w (db_path self)) = Ok df →
  append_limit limit q (db_at w (db_path self))
  = Ok {| columns := columns df; rows := capped limit (rows df) |}.
Proof.
  intros Hq. unfold append_limit, capped.
  destruct limit as [n|]; [case_bool_decide|]; try (by destruct df).
  unfold Select.with_limit. by rewrite Hq.
Qed.






(** *** Fraud and legitimate rows *)

Lemma all_where_eq_ok (t : DataFrame) (i : nat) (z : Z) :
  db_at w (db_path self) !! "raw_transactions" = Some t →
  Sql.column_index "Class" t = Some i →
  Select.all_where_eq "raw_transactions" "Class" z (db_at w (db_path self))
  = Ok {| columns := columns t; rows := class_rows t i z |}.
Proof.
  intros Ht Hi. unfold Select.all_where_eq, Select.from, Select.column.
  by rewrite Ht, Hi.
Qed.

Lemma get_fraud_transactions_ok (t : DataFrame) (i : nat) (limit : option Z) :
  db_at w (db_path self) !! "raw_transactions" = Some t →
  Sql.column_index "Class" t = Some i →
  fst (get_fraud_transactions self limit w)
  = Ok {| columns := columns t; rows := capped limit (class_rows t i 1) |}.
Proof.
  intros Ht Hi. unfold get_fraud_transactions.
  erewrite helper_ok; [done|].
  by rewrite (append_limit_ok limit _ _ (all_where_eq_ok t i 1 Ht Hi)).
Qed.

Lemma get_legitimate_transactions_ok
    (t : DataFrame) (i : nat) (limit : option Z) :
  db_at w (db_path self) !! "raw_transactions" = Some t →
  Sql.column_index "Class" t = Some i →
  fst (get_legitimate_transactions self limit w)
  = Ok {| columns := columns t; rows := capped limit (class_rows t i 0) |}.
Proof.
  intros Ht Hi. unfold get_legitimate_transactions.
  erewrite helper_ok; [done|].
  by rewrite (append_limit_ok limit _ _ (all_where_eq_ok t i 0 Ht Hi)).
Qed.



Lemma capped_omitted (rs : list row) : capped None rs = rs.
Proof. done. Qed.

(** A limit of 0 is read as no limit, and so is a negative one. *)
Lemma capped_zero (rs : list row) : capped (Some 0) rs = rs.
Proof. done. Qed.

Lemma capped_negative (n : Z) (rs : list row) : n < 0 → capped (Some n) rs = rs.
Proof.
  intros Hn. unfold capped, Sql.limit.
  by rewrite bool_decide_eq_true_2, bool_decide_eq_true_2 by lia.
Qed.

End query_helpers.
Section counting.
Context (self : DataStorageManager) (w : world).

(** The sum of a CASE that is 1 on the rows of a class counts those rows. *)
Lemma sum_case_count (i : nat) (z : Z) (rs : list row) :
  foldr (λ r acc, Sql.case_1_0 (Sql.eq_op (cell r i) (VInt z)) + acc) 0 rs
  = Z.of_nat (length (filter (of_class i z) rs)).
Proof.
  induction rs as [|r rs IH]; [done|]. simpl. rewrite IH.
  rewrite filter_cons. destruct (decide (of_class i z r)) as [Hc|Hc].
  - unfold of_class in Hc. rewrite Hc. simpl. lia.
  - unfold of_class in Hc.
    destruct (Sql.eq_op (cell r i) (VInt z)) as [[]|]; simpl; [done|lia..].
Qed.

Lemma counts_by_class_ok (t : DataFrame) (i : nat) :
  db_at w (db_path self) !! "raw_transactions" = Some t →
  Sql.column_index "Class" t = Some i →
  Select.counts_by_class (db_at w (db_path self))
  = Ok {| columns := ["total"; "fraud"; "legitimate"];
          rows := [[Sql.count (rows t);
                    Sql.sum (λ r, Sql.case_1_0 (Sql.eq_op (cell r i) (VInt 1))) (rows t);
                    Sql.sum (λ r, Sql.case_1_0 (Sql.eq_op (cell r i) (VInt 0))) (rows t)]] |}.
Proof.
  intros Ht Hi. unfold Select.counts_by_class, Select.from, Select.column.
  by rewrite Ht, Hi.
Qed.

(** C1: on every store whose transactions table has no row,
    [get_transaction_count] raises the [TypeError] of [int(None)]: SUM over
    no row is NULL, and the test [total > 0] is never reached. *)
Theorem transaction_count_fails_on_empty_table (t : DataFrame) (i : nat) :
  db_at w (db_path self) !! "raw_transactions" = Some t →
  Sql.column_index "Class" t = Some i →
  rows t = [] →
  ∃ msg, fst (get_transaction_count self w) = Raise (TypeError msg).
Proof.
  intros Ht Hi Hrows. eexists. unfold get_transaction_count.
  erewrite try_raise; [done|].
  erewrite bind_ok; [|by apply query_data_ok, counts_by_class_ok].
  rewrite Hrows. reflexivity.
Qed.

(** On a table with at least one row the counts are those of the rows. *)
Lemma transaction_count_on_rows (t : DataFrame) (i : nat) :
  db_at w (db_path self) !! "raw_transactions" = Some t →
  Sql.column_index "Class" t = Some i →
  rows t ≠ [] →
  let n := Z.of_nat (length (rows t)) in
  let f := Z.of_nat (length (class_rows t i 1)) in
  let l := Z.of_nat (length (class_rows t i 0)) in
  fst (get_transaction_count self w)
  = Ok {| counts.total := n; counts.fraud := f; counts.legitimate := l;
          counts.fraud_rate :=
            round3 (PyFloat (Qc_of_Z f / Qc_of_Z n * Qc_of_Z 100)%Qc) |}.
Proof.
  intros Ht Hi Hrows n f l. unfold get_transaction_count.
  erewrite try_ok; [done|].
  erewrite bind_ok; [|by apply query_data_ok, counts_by_class_ok].
  destruct (rows t) as [|r rs] eqn:Hrs; [done|].
  unfold Sql.sum, Sql.count. rewrite !sum_case_count.
  unfold mbind at 1, M_bind, lift, first_as_int. simpl.
  fold (of_class i 1) (of_class i 0).
  unfold n, f, l, class_rows. rewrite Hrs. reflexivity.
Qed.

Lemma Qc_of_Z_0 : Qc_of_Z 0 = 0%Qc.
Proof. by apply Qc_is_canon. Qed.

(** Without a fraud row the count of frauds and the rate are 0. *)
Lemma transaction_count_no_fraud (t : DataFrame) (i : nat) :
  db_at w (db_path self) !! "raw_transactions" = Some t →
  Sql.column_index "Class" t = Some i →
  rows t ≠ [] →
  class_rows t i 1 = [] →
  ∃ c, fst (get_transaction_count self w) = Ok c ∧
       counts.fraud c = 0 ∧ counts.fraud_rate c = PyFloat 0%Qc.
Proof.
  intros Ht Hi Hrows Hnone. eexists. split; [by apply transaction_count_on_rows|].
  cbv [counts.fraud counts.fraud_rate round3]. rewrite Hnone.
  change (Z.of_nat (length [])) with 0. split; [done|].
  rewrite Qc_of_Z_0. unfold Qcdiv. rewrite !Qcmult_0_l.
  f_equal. by apply Qc_is_canon.
Qed.

(** No value is both 0 and 1. *)
Lemma of_class_exclusive (i : nat) (r : row) :
  of_class i 0 r → of_class i 1 r → False.
Proof.
  unfold of_class, Sql.eq_op, Sql.cmp_op, Sql.compare.
  destruct (cell r i) as [|z|q|s]; simpl; try done.
  - rewrite !SqlFacts.Qc_of_Z_compare.
    destruct (Z.compare_spec z 0), (Z.compare_spec z 1); try done; lia.
  - destruct (q ?= Qc_of_Z 0)%Qc eqn:H0; try done.
    destruct (q ?= Qc_of_Z 1)%Qc eqn:H1; try done.
    apply Qceq_alt in H0, H1. by rewrite H0 in H1.
Qed.

(** When every row is of class 0 or 1 the two classes split the rows. *)
Lemma class_rows_split (t : DataFrame) (i : nat) :
  (∀ r, r ∈ rows t → of_class i 0 r ∨ of_class i 1 r) →
  length (rows t)
  = (length (class_rows t i 1) + length (class_rows t i 0))%nat.
Proof.
  unfold class_rows. induction (rows t) as [|r rs IH]; [done|].
  intros Hall. rewrite !filter_cons.
  assert (of_class i 0 r ∨ of_class i 1 r) as Hr by (apply Hall; left).
  assert (length rs = (length (filter (of_class i 1) rs)
                       + length (filter (of_class i 0) rs))%nat) as Hrs
    by (apply IH; intros r' Hr'; apply Hall; by right).
  destruct (decide (of_class i 1 r)) as [H1|H1],
           (decide (of_class i 0 r)) as [H0|H0]; simpl; try lia.
  - destruct (of_class_exclusive i r H0 H1).
  - by destruct Hr.
Qed.

(** On a table with at least one row, all of class 0 or 1, the counts add
    up. *)
Lemma transaction_count_adds_up (t : DataFrame) (i : nat) :
  db_at w (db_path self) !! "raw_transactions" = Some t →
  Sql.column_index "Class" t = Some i →
  rows t ≠ [] →
  (∀ r, r ∈ rows t → of_class i 0 r ∨ of_class i 1 r) →
  ∃ c, fst (get_transaction_count self w) = Ok c ∧
       counts.total c = counts.fraud c + counts.legitimate c ∧
       counts.fraud c = Z.of_nat (length (class_rows t i 1)) ∧
       counts.legitimate c = Z.of_nat (length (class_rows t i 0)).
Proof.
  intros Ht Hi Hrows Hall. eexists.
  split; [by apply transaction_count_on_rows|]. simpl.
  rewrite (class_rows_split t i Hall). split; [lia|done].
Qed.

End counting.

(** ** The helpers on sample stores *)


Lemma transaction_count_fails_on_empty_table_witness :
  ∃ msg,
    fst (get_transaction_count sample_manager
           (world_with_table (sample_table []))) = Raise (TypeError msg).
Proof.
  apply (transaction_count_fails_on_empty_table sample_manager
           (world_with_table (sample_table [])) (sample_table []) 2);
    by vm_compute.
Defined.

(** C2: with a limit of 0 each of the three helpers returns every row its
    statement selects, here two rows and not at most 0: the test
    [if limit:] takes 0 for an omitted limit. *)
Theorem limit_zero_returns_every_row :
  let w := world_with_table (sample_table [tx 0 1500 1; tx 1 2500 1;
                                           tx 2 3500 0; tx 3 4500 0]) in
  rows <$> fst (get_fraud_transactions sample_manager (Some 0) w)
    = Ok [tx 0 1500 1; tx 1 2500 1] ∧
  rows <$> fst (get_legitimate_transactions sample_manager (Some 0) w)
    = Ok [tx 2 3500 0; tx 3 4500 0] ∧
  rows <$> fst (get_high_value_transactions sample_manager (PyInt 1000) (Some 0) w)
    = Ok [tx 3 4500 0; tx 2 3500 0; tx 1 2500 1; tx 0 1500 1].
Proof. by vm_compute. Qed.

(** C9: the table with the columns of the card data set and no row has
    only class values 0 and 1 (it has none), and [get_transaction_count]
    returns no counts for it: it raises the [TypeError] of [int(None)]. *)
Theorem transaction_count_of_empty_binary_table :
  let t := {| columns := ["Time"; "V1"; "V2"; "Amount"; "Class"]; rows := [] |} in
  (∀ r, r ∈ rows t → of_class 4 0 r ∨ of_class 4 1 r) ∧
  ∃ msg, fst (get_transaction_count sample_manager (world_with_table t))
         = Raise (TypeError msg).
Proof.
  split; [by intros r ?%elem_of_nil|]. eexists. by vm_compute.
Qed.

(** ** Ingestion *)

Lemma try_bind_ok {A B} (m : M A) (f : A → M B) (h : exn → M B)
    (w w' : world) (a : A) :
  m w = (Ok a, w') → try_except (m ≫= f) h w = try_except (f a) h w'.
Proof. intros Hm. unfold try_except. by rewrite (bind_ok _ _ _ _ _ Hm). Qed.

Lemma try_bind_raise {A B} (m : M A) (f : A → M B) (h : exn → M B)
    (w w' : world) (e : exn) :
  m w = (Raise e, w') → try_except (m ≫= f) h w = h e w'.
Proof. intros Hm. unfold try_except. by rewrite (bind_raise _ _ _ _ _ Hm). Qed.

Lemma path_exists_present (p : string) (w : world) (f : file) :
  files w !! p = Some f → path_exists p w = (Ok true, log (PathExists p) w).
Proof. intros Hf. unfold path_exists. by rewrite Hf. Qed.

Lemma path_exists_absent (p : string) (w : world) :
  files w !! p = None → path_exists p w = (Ok false, log (PathExists p) w).
Proof. intros Hf. unfold path_exists. by rewrite Hf. Qed.

Lemma read_csv_table (p : string) (w : world) (df : DataFrame) :
  files w !! p = Some (CsvFile df) →
  read_csv p w = (Ok df, log (ReadFile p) w).
Proof.
  intros Hf. unfold read_csv.
  erewrite bind_ok; [|unfold read_file; by rewrite Hf]. done.
Qed.

Section ingestion.
Context `{Library} (self : DataStorageManager).

(** C7: for every path at which no file exists, [load_raw_data] fails with
    a [FileNotFoundError], of kind NotFound, and all it has done by then is
    to print its first line and check that the path exists: no file is
    read or written, no database is touched. *)
Theorem load_raw_data_not_found (csv_path dataset_name : string) (w : world) :
  files w !! csv_path = None →
  ∃ e w',
    load_raw_data self csv_path dataset_name w = (Raise e, w') ∧
    e = FileNotFoundError ("CSV file not found: " +:+ csv_path) ∧
    kind_of e = NotFound ∧
    files w' = files w ∧ databases w' = databases w ∧
    trace w' = [Printed (Failure "File Error" e); PathExists csv_path;
                Printed (Progress "Loading data from")] ++ trace w.
Proof.
  intros Hf. do 2 eexists. split.
  - unfold load_raw_data.
    erewrite try_bind_ok by reflexivity.
    erewrite try_bind_ok by (by apply path_exists_absent).
    erewrite try_bind_raise by reflexivity. reflexivity.
  - done.
Qed.

Lemma missing_cols_elem (df : DataFrame) (c : string) :
  c ∈ missing_cols df ↔ c ∈ expected_cols ∧ c ∉ columns df.
Proof. unfold missing_cols. rewrite list_elem_of_filter. tauto. Qed.

Lemma missing_cols_nil (df : DataFrame) :
  missing_cols df = [] ↔
  "Time" ∈ columns df ∧ "Amount" ∈ columns df ∧ "Class" ∈ columns df.
Proof.
  unfold missing_cols, expected_cols. rewrite !filter_cons, filter_nil.
  repeat case_decide; split; try done; intros (?&?&?); done.
Qed.

(** A file whose table lacks one of the three columns is refused before
    anything is written. *)
Lemma load_raw_data_missing_columns
    (csv_path dataset_name : string) (w : world) (df : DataFrame) :
  files w !! csv_path = Some (CsvFile df) →
  df_empty df = false →
  missing_cols df ≠ [] →
  let e := ValueError ("Missing required columns: "
                         +:+ repr_list (missing_cols df)) in
  load_raw_data self csv_path dataset_name w
  = (Raise e,
     log (Printed (Failure "Validation Error" e))
       (log (ReadFile csv_path)
          (log (PathExists csv_path)
             (log (Printed (Progress "Loading data from")) w)))).
Proof.
  intros Hf Hne Hmiss e. unfold load_raw_data.
  erewrite try_bind_ok by reflexivity.
  erewrite try_bind_ok by (by eapply path_exists_present).
  erewrite try_bind_ok by reflexivity.
  erewrite try_bind_ok by (by eapply read_csv_table).
  rewrite Hne. erewrite try_bind_ok by reflexivity.
  rewrite bool_decide_eq_false_2 by done.
  by erewrite try_bind_raise by reflexivity.
Qed.

(** C3: for every file that exists and holds a table with at least one row
    but no column named Amount, [load_raw_data] fails with a [ValueError],
    of kind Validation, and has written nothing by then: the files and the
    databases are those it started with, and the trace holds nothing but
    its first line, the existence check, the read and the error line. *)
Theorem load_without_amount_writes_nothing
    (csv_path dataset_name : string) (w : world) (df : DataFrame) :
  files w !! csv_path = Some (CsvFile df) →
  df_empty df = false →
  "Amount" ∉ columns df →
  ∃ e w',
    load_raw_data self csv_path dataset_name w = (Raise e, w') ∧
    kind_of e = Validation ∧
    files w' = files w ∧ databases w' = databases w ∧
    trace w' = [Printed (Failure "Validation Error" e); ReadFile csv_path;
                PathExists csv_path; Printed (Progress "Loading data from")]
               ++ trace w.
Proof.
  intros Hf Hne Hamount. do 2 eexists. split.
  - apply load_raw_data_missing_columns; [done..|].
    rewrite missing_cols_nil. tauto.
  - done.
Qed.

(** *** The steps after the validation, one by one *)

(** The hash is computed in every world, it is the same in all of them,
    and computing it changes nothing but the trace. *)
Lemma calculate_data_hash_run (df : DataFrame) (w : world) :
  ∃ w', _calculate_data_hash df w = (Ok (data_hash df), w') ∧ same_store w w'.
Proof.
  unfold _calculate_data_hash, data_hash, try_except, mbind, M_bind, lift.
  destruct (hash_pandas_object df); eexists; (split; [reflexivity|done]).
Qed.

Lemma to_csv_ok_inv (df : DataFrame) (p : string) (w w' : world) (u : unit) :
  to_csv df p w = (Ok u, w') →
  (p ∉ readonly w) ∧
  w' = log (WriteFile p) (set_files (<[p := CsvFile df]> (files w)) w).
Proof.
  unfold to_csv, write_file. case_bool_decide; [done|]. by intros [= _ <-].
Qed.


Lemma raises_to_csv (df : DataFrame) (p : string) :
  raises (λ e, kind_of e = IO) (to_csv df p).
Proof.
  intros w e w'. unfold to_csv, write_file. case_bool_decide; [|done].
  by intros [= <- _].
Qed.

Lemma create_index_ok_inv (index table col db : string) (w w' : world)
    (u : unit) :
  create_index index table col db w = (Ok u, w') →
  w' = log (DbCreateIndex db index) w.
Proof.
  unfold create_index. repeat case_match; try done. by intros [= _ <-].
Qed.

Lemma raises_create_index (index table col db : string) :
  raises (λ e, kind_of e = Query) (create_index index table col db).
Proof.
  intros w e w'. unfold create_index.
  repeat case_match; try done; by intros [= <- _].
Qed.

Lemma to_sql_ok_inv (df : DataFrame) (table db : string) (w w' : world)
    (u : unit) :
  to_sql df table db w = (Ok u, w') →
  (db ∉ readonly w) ∧ NoDup (Sql.lower <$> columns df) ∧
  w' = log (DbReplace db table)
         (set_databases (<[db := <[table := df]> (db_at w db)]> (databases w)) w).
Proof.
  unfold to_sql. repeat case_bool_decide; try done. by intros [= _ <-].
Qed.

Lemma raises_to_sql (df : DataFrame) (table db : string) :
  raises (λ e, kind_of e = Query) (to_sql df table db).
Proof.
  intros w e w'. unfold to_sql.
  repeat case_bool_decide; try done; by intros [= <- _].
Qed.

Lemma save_to_sqlite_reraises :
  reraises (λ e : exn,
    if is_sqlite_error e then @reraise_logged unit "Database Error" e
    else reraise_logged "Error saving to SQLite" e).
Proof. intros e w. destruct (is_sqlite_error e); by eexists. Qed.

(** Saving a frame replaces the table by the frame and touches nothing
    else of the store. *)
Lemma save_to_sqlite_ok_inv (df : DataFrame) (table : string) (w w' : world)
    (u : unit) :
  _save_to_sqlite self df table w = (Ok u, w') →
  (db_path self ∉ readonly w) ∧ NoDup (Sql.lower <$> columns df) ∧
  databases w'
  = <[db_path self := <[table := df]> (db_at w (db_path self))]> (databases w) ∧
  files w' = files w ∧ readonly w' = readonly w ∧ clock w' = clock w.
Proof.
  unfold _save_to_sqlite.
  intros Hrun%try_except_ok_inv; [|apply save_to_sqlite_reraises].
  apply bind_ok_inv in Hrun as (u1 & w1 & (Hro & Hnd & ->)%to_sql_ok_inv & Hrun).
  apply bind_ok_inv in Hrun as (u2 & w2 & Hix & Hrun).
  assert (same_store
            (log (DbReplace (db_path self) table)
               (set_databases
                  (<[db_path self:=<[table:=df]> (db_at w (db_path self))]>
                     (databases w)) w)) w2) as Hsame.
  { destruct (String.eqb table "raw_transactions").
    - apply bind_ok_inv in Hix as (? & ? & ->%create_index_ok_inv & Hix).
      apply bind_ok_inv in Hix as (? & ? & ->%create_index_ok_inv & Hix).
      by apply create_index_ok_inv in Hix as ->.
    - unfold mret, M_ret in Hix. by simplify_eq. }
  unfold print, emit in Hrun. simplify_eq.
  destruct Hsame as (Hf & Hd & Hr & Hc).
  simpl in *. by rewrite Hf, Hd, Hr, Hc.
Qed.

Lemma raises_save_to_sqlite (df : DataFrame) (table : string) :
  raises (λ e, kind_of e = Query) (_save_to_sqlite self df table).
Proof.
  unfold _save_to_sqlite.
  apply raises_try_reraise; [apply save_to_sqlite_reraises|].
  apply raises_bind; [apply raises_to_sql|intros _].
  apply raises_bind; [|intros _; apply raises_print].
  destruct (String.eqb table "raw_transactions"); [|apply raises_mret].
  repeat (apply raises_bind; [apply raises_create_index|intros _]).
  apply raises_create_index.
Qed.

(** The name SQLite resolves a label to: a column with that very label is
    found. *)
Lemma column_index_present (c : string) (t : DataFrame) :
  c ∈ columns t → is_Some (Sql.column_index c t).
Proof.
  unfold Sql.column_index. induction (columns t) as [|c' cs IH]; simpl.
  - by intros ?%elem_of_nil.
  - intros [->|Hin]%elem_of_cons.
    + unfold Sql.same_name. by rewrite String.eqb_refl.
    + destruct (Sql.same_name c' c); [done|].
      destruct (IH Hin) as [i ->]. done.
Qed.




(** *** The metadata registry *)

Lemma obj_get_set (k : string) (v : json) (fields : list (string * json)) :
  obj_get k (obj_set k v fields) = Some v.
Proof.
  induction fields as [|[k' v'] rest IH]; simpl.
  - by rewrite String.eqb_refl.
  - destruct (String.eqb k' k) eqn:Hk; simpl.
    + by rewrite String.eqb_refl.
    + by rewrite Hk.
Qed.

(** A failure to record metadata is swallowed: [_record_metadata] returns
    in every world, and after a failure of its [try] block it has printed
    the warning and nothing else. *)
Lemma record_metadata_returns (kwargs : list (string * json)) (w : world) :
  ∃ w', _record_metadata self kwargs w = (Ok (), w') ∧
    ∀ e w1, append_to_registry self kwargs w = (Raise e, w1) →
      w' = log (Printed (Warning "Could not record metadata" e)) w1.
Proof.
  unfold _record_metadata, try_except.
  destruct (append_to_registry self kwargs w) as [[[]|e] w1]; eexists.
  - by split.
  - split; [reflexivity|]. by intros e' w1' [= <- <-].
Qed.

Lemma raises_record_metadata (P : exn → Prop) (kwargs : list (string * json)) :
  raises P (_record_metadata self kwargs).
Proof.
  intros w e w' Hr.
  destruct (record_metadata_returns kwargs w) as (w1 & Hok & _). congruence.
Qed.

(** The [try] block fails exactly when the registry cannot be used or
    cannot be written; then no file has changed. *)
Lemma append_to_registry_fails (kwargs : list (string * json)) (w : world) :
  registry_entries self w = None ∨ metadata_path self ∈ readonly w →
  ∃ e w1, append_to_registry self kwargs w = (Raise e, w1) ∧
          files w1 = files w ∧ databases w1 = databases w ∧
          readonly w1 = readonly w.
Proof.
  unfold registry_entries, append_to_registry.
  unfold json_load, read_file, datetime_now, json_dump, write_file,
    append_dataset, lift, raise, path_exists, mbind, mret, M_bind, M_ret.
  destruct (files w !! metadata_path self) as [[df|doc]|] eqn:Hf; simpl;
    rewrite ?Hf; simpl.
  - intros _. do 2 eexists. split; [reflexivity|done].
  - destruct doc as [| | | | |fields]; simpl;
      try (intros _; do 2 eexists; split; [reflexivity|done]).
    destruct (obj_get "datasets" fields) as [[| | | |items|]|]; simpl;
      try (intros _; do 2 eexists; split; [reflexivity|done]).
    intros [|Hro]; [done|].
    rewrite bool_decide_eq_true_2 by done.
    do 2 eexists; split; [reflexivity|done].
  - intros [|Hro]; [done|].
    rewrite bool_decide_eq_true_2 by done.
    do 2 eexists; split; [reflexivity|done].
Qed.

(** On a registry that can be used and written the [try] block appends
    one entry, stamped with the clock's reading. *)
Lemma append_to_registry_ready (kwargs : list (string * json)) (w : world)
    (items : list json) :
  registry_entries self w = Some items →
  metadata_path self ∉ readonly w →
  ∃ w1, append_to_registry self kwargs w = (Ok (), w1) ∧
        registry_entries self w1
        = Some (items ++ [entry_dict (isoformat (clock w)) kwargs]) ∧
        databases w1 = databases w ∧ readonly w1 = readonly w ∧
        clock w1 = S (clock w) ∧
        ∀ p, p ≠ metadata_path self → files w1 !! p = files w !! p.
Proof.
  unfold registry_entries at 1, append_to_registry.
  unfold json_load, read_file, datetime_now, json_dump, write_file,
    append_dataset, lift, raise, path_exists, print, emit,
    mbind, mret, M_bind, M_ret.
  destruct (files w !! metadata_path self) as [[df|doc]|] eqn:Hf; simpl;
    rewrite ?Hf; simpl; [done| |].
  - destruct doc as [| | | | |fields]; try done.
    destruct (obj_get "datasets" fields) as [[| | | |its|]|] eqn:Hget;
      try done.
    intros [= ->] Hro. simpl.
    rewrite bool_decide_eq_false_2 by done.
    eexists. split; [reflexivity|]. unfold registry_entries. simpl.
    rewrite lookup_insert_eq, obj_get_set. split_and!; try done.
    intros p Hp. by rewrite lookup_insert_ne.
  - intros [= <-] Hro.
    rewrite bool_decide_eq_false_2 by done.
    eexists. split; [reflexivity|]. unfold registry_entries. simpl.
    rewrite lookup_insert_eq. split_and!; try done.
    intros p Hp. by rewrite lookup_insert_ne.
Qed.

(** Whatever becomes of it, recording metadata leaves the databases and
    every file but the registry as they are. *)
Lemma record_metadata_frame (kwargs : list (string * json)) (w w' : world)
    (u : unit) :
  _record_metadata self kwargs w = (Ok u, w') →
  databases w' = databases w ∧ readonly w' = readonly w ∧
  ∀ p, p ≠ metadata_path self → files w' !! p = files w !! p.
Proof.
  destruct (decide (registry_entries self w = None
                    ∨ metadata_path self ∈ readonly w)) as [Hbad|Hgood].
  - destruct (append_to_registry_fails kwargs w Hbad)
      as (e & w1 & Hrun & Hf & Hd & Hr).
    destruct (record_metadata_returns kwargs w) as (w2 & Hok & Hw2).
    rewrite Hok. intros [= _ <-]. rewrite (Hw2 e w1 Hrun). simpl.
    split_and!; [done..|]. intros p _. by rewrite Hf.
  - destruct (registry_entries self w) as [items|] eqn:Hreg;
      [|destruct Hgood; by left].
    destruct (append_to_registry_ready kwargs w items Hreg)
      as (w1 & Hrun & _ & Hd & Hr & _ & Hf); [tauto|].
    unfold _record_metadata. erewrite try_ok by done.
    by intros [= _ <-].
Qed.
(** *** The whole ingest *)

(** The raw copy and the registry are different files. *)
Lemma raw_output_path_not_registry (dataset_name : string) :
  raw_output_path self dataset_name ≠ metadata_path self.
Proof.
  unfold raw_output_path, metadata_path, joinpath. intros Heq.
  apply (f_equal last_char) in Heq.
  rewrite !last_char_app in Heq by (by destruct dataset_name).
  done.
Qed.

Lemma load_handler_reraises :
  reraises (λ e : exn,
    match e with
    | FileNotFoundError _ => @reraise_logged DataFrame "File Error" e
    | ValueError _ => reraise_logged "Validation Error" e
    | _ => reraise_logged "Unexpected error loading data" e
    end).
Proof. intros e w. destruct e; by eexists. Qed.

(** What a successful ingest has found and done. *)
Lemma load_raw_data_ok_inv (csv_path dataset_name : string) (w w' : world)
    (df : DataFrame) :
  load_raw_data self csv_path dataset_name w = (Ok df, w') →
  files w !! csv_path = Some (CsvFile df) ∧
  df_empty df = false ∧ missing_cols df = [] ∧
  fraud_rate_computable df ∧
  readonly w' = readonly w ∧
  databases w'
  = <[db_path self := <["raw_transactions" := df]> (db_at w (db_path self))]>
      (databases w) ∧
  files w' !! raw_output_path self dataset_name = Some (CsvFile df) ∧
  ∀ items,
    registry_entries self w = Some items →
    metadata_path self ∉ readonly w →
    registry_entries self w'
    = Some (items ++ [registry_entry self dataset_name df (clock w)]) ∧
    clock w' = S (clock w).
Proof.
  unfold load_raw_data.
  intros Hrun%try_except_ok_inv; [|apply load_handler_reraises].
  apply bind_ok_inv in Hrun as (? & w1 & [= _ <-] & Hrun).
  apply bind_ok_inv in Hrun as (present & w2 & [= <- <-] & Hrun).
  apply bind_ok_inv in Hrun as (? & w3 & Hpresent & Hrun).
  case_bool_decide as Hex; [|done]. injection Hpresent as _ <-.
  apply bind_ok_inv in Hrun as (df0 & w4 & Hread & Hrun).
  assert (files w !! csv_path = Some (CsvFile df0) ∧
          w4 = log (ReadFile csv_path)
                 (log (PathExists csv_path)
                    (log (Printed (Progress "Loading data from")) w)))
    as [Hfile ->].
  { revert Hread. unfold read_csv, read_file, mbind, M_bind. simpl.
    destruct (files w !! csv_path) as [[?|?]|]; try done.
    by intros [= -> <-]. }
  apply bind_ok_inv in Hrun as (? & w5 & Hempty & Hrun).
  destruct (df_empty df0) eqn:Hne; [done|]. injection Hempty as _ <-.
  apply bind_ok_inv in Hrun as (? & w6 & Hmissing & Hrun).
  case_bool_decide as Hmiss; [|done]. injection Hmissing as _ <-.
  apply bind_ok_inv in Hrun as (? & w7 & [= _ <-] & Hrun).
  apply bind_ok_inv in Hrun as (h & w8 & Hhash & Hrun).
  match type of Hhash with _ ?w0 = _ =>
    destruct (calculate_data_hash_run df0 w0) as (w8' & Hh & Hs8) end.
  rewrite Hh in Hhash. injection Hhash as <- <-.
  apply bind_ok_inv in Hrun as (? & w9 & (Hraw & ->)%to_csv_ok_inv & Hrun).
  apply bind_ok_inv in Hrun as (? & w10 & [= _ <-] & Hrun).
  apply bind_ok_inv in Hrun
    as (? & w11 & (Hdb & Hnd & Hd11 & Hf11 & Hr11 & Hc11)%save_to_sqlite_ok_inv
        & Hrun).
  apply bind_ok_inv in Hrun as (? & w12 & Hmeta & Hrun).
  apply bind_ok_inv in Hrun as (mean & w13 & [= Hmean <-] & Hrun).
  apply bind_ok_inv in Hrun as (? & w14 & [= _ <-] & Hrun).
  injection Hrun as <- <-.
  destruct Hs8 as (Hf8 & Hd8 & Hr8 & Hc8). simpl in *.
  pose proof (record_metadata_frame _ _ _ _ Hmeta) as (Hd12 & Hr12 & Hf12).
  split_and!; try done.
  - by exists mean.
  - by rewrite Hr12, Hr11, Hr8.
  - rewrite Hd12, Hd11. unfold db_at. simpl. by rewrite Hd8.
  - rewrite Hf12 by apply raw_output_path_not_registry.
    rewrite Hf11. simpl. by rewrite lookup_insert_eq.
  - intros items Hreg Hro.
    assert (registry_entries self w11 = Some items) as Hreg11.
    { unfold registry_entries in *. rewrite Hf11. simpl.
      rewrite lookup_insert_ne by apply raw_output_path_not_registry.
      by rewrite Hf8. }
    assert (metadata_path self ∉ readonly w11) as Hro11
      by (by rewrite Hr11, Hr8).
    destruct (append_to_registry_ready
                (metadata_kwargs dataset_name (data_hash df0) (df_len df0)
                   (df_width df0) (raw_output_path self dataset_name))
                w11 items Hreg11 Hro11)
      as (w12' & Happ & Hreg12 & _ & _ & Hc12 & _).
    revert Hmeta. unfold _record_metadata. erewrite try_ok by done.
    intros Heq. assert (w12 = w12') as -> by congruence.
    change (registry_entries self (log ?ev ?x)) with (registry_entries self x).
    rewrite Hreg12, Hc12, Hc11, Hc8. done.
Qed.
Lemma raises_calculate_data_hash (P : exn → Prop) (df : DataFrame) :
  raises P (_calculate_data_hash df).
Proof.
  intros w e w' Hr.
  destruct (calculate_data_hash_run df w) as (w1 & Hok & _). congruence.
Qed.

Lemma fraud_rate_errors (df : DataFrame) (e : exn) :
  getitem df "Class" ≫= series_mean = Raise e → kind_of e = Unexpected.
Proof.
  unfold getitem, series_mean, mbind, result_bind.
  destruct (df_column df "Class") as [cells|]; [|by intros [= <-]].
  repeat case_match; try done; by intros [= <-].
Qed.

(** Once the columns are validated no error of kind Validation comes. *)
Lemma load_raw_data_validated_errors
    (csv_path dataset_name : string) (w w' : world) (df : DataFrame) (e : exn) :
  files w !! csv_path = Some (CsvFile df) →
  df_empty df = false →
  missing_cols df = [] →
  load_raw_data self csv_path dataset_name w = (Raise e, w') →
  kind_of e ≠ Validation.
Proof.
  intros Hfile Hne Hmiss. unfold load_raw_data.
  erewrite try_bind_ok by reflexivity.
  erewrite try_bind_ok by (by eapply path_exists_present).
  erewrite try_bind_ok by reflexivity.
  erewrite try_bind_ok by (by eapply read_csv_table).
  rewrite Hne. erewrite try_bind_ok by reflexivity.
  rewrite bool_decide_eq_true_2 by done.
  erewrite try_bind_ok by reflexivity.
  intros (w0 & Hr & _)%try_except_raise_inv; [|apply load_handler_reraises].
  revert Hr. apply (raises_bind (λ e, kind_of e ≠ Validation)).
  { apply raises_print. }
  intros _. apply raises_bind; [apply raises_calculate_data_hash|intros h].
  apply raises_bind.
  { eapply raises_weaken; [|apply raises_to_csv]. by intros ? ->. }
  intros _. apply raises_bind; [apply raises_print|intros _].
  apply raises_bind.
  { eapply raises_weaken; [|apply raises_save_to_sqlite]. by intros ? ->. }
  intros _. apply raises_bind; [apply raises_record_metadata|intros _].
  apply raises_bind.
  { apply raises_lift. by intros e0 ->%fraud_rate_errors. }
  intros _. apply raises_bind; [apply raises_print|intros _].
  apply raises_mret.
Qed.

(** C10: the validation of [load_raw_data] asks for the column names Time,
    Amount and Class as they are written.  On every file with a table of
    at least one row: no name is missing exactly when the three names are
    among the columns, whatever other columns there are, and then no error
    of kind Validation is raised; the missing names are the ones of the
    three that no column bears (a column named amount does not stand for
    Amount), and when there is one the load fails with the [ValueError]
    that lists them. *)
Theorem required_columns_exact
    (csv_path dataset_name : string) (w : world) (df : DataFrame) :
  files w !! csv_path = Some (CsvFile df) →
  df_empty df = false →
  (missing_cols df = [] ↔
     "Time" ∈ columns df ∧ "Amount" ∈ columns df ∧ "Class" ∈ columns df) ∧
  (∀ c, c ∈ missing_cols df ↔
     c ∈ ["Time"; "Amount"; "Class"] ∧ c ∉ columns df) ∧
  (missing_cols df = [] →
     ∀ e, fst (load_raw_data self csv_path dataset_name w) = Raise e →
          kind_of e ≠ Validation) ∧
  (missing_cols df ≠ [] →
     ∃ e, fst (load_raw_data self csv_path dataset_name w) = Raise e ∧
          e = ValueError ("Missing required columns: "
                            +:+ repr_list (missing_cols df)) ∧
          kind_of e = Validation).
Proof.
  intros Hfile Hne. split_and!.
  - apply missing_cols_nil.
  - apply missing_cols_elem.
  - intros Hmiss e Hr.
    destruct (load_raw_data self csv_path dataset_name w) as [r w'] eqn:Hrun.
    simpl in Hr. subst r. by eapply load_raw_data_validated_errors.
  - intros Hmiss. eexists. split; [|done].
    by rewrite (load_raw_data_missing_columns _ _ _ df).
Qed.
(** The reasons for which the [try] block of [_record_metadata] fails are
    these two and no other. *)
Lemma append_to_registry_fails_iff (kwargs : list (string * json)) (w : world) :
  (∃ e w1, append_to_registry self kwargs w = (Raise e, w1)) ↔
  registry_entries self w = None ∨ metadata_path self ∈ readonly w.
Proof.
  split.
  - intros (e & w1 & Hrun).
    destruct (registry_entries self w) as [items|] eqn:Hreg; [|by left].
    destruct (decide (metadata_path self ∈ readonly w)) as [|Hro]; [by right|].
    destruct (append_to_registry_ready kwargs w items Hreg Hro)
      as (w2 & Hok & _). congruence.
  - intros Hbad.
    destruct (append_to_registry_fails kwargs w Hbad) as (e & w1 & Hrun & _).
    eauto.
Qed.

(** C4, as the code has it: after two successful loads under one dataset
    name the transactions table is the table of the second file, columns
    and rows, and nothing of the first is left; and when the registry file
    is absent or holds a registry, and can be written, the registry has
    gained two entries, the first load's and then the second's.  (A load
    succeeds also when its entry cannot be appended.) *)
Theorem second_load_replaces_first
    (csv1 csv2 dataset_name : string) (w0 w1 w2 : world) (df1 df2 : DataFrame) :
  load_raw_data self csv1 dataset_name w0 = (Ok df1, w1) →
  load_raw_data self csv2 dataset_name w1 = (Ok df2, w2) →
  files w1 !! csv2 = Some (CsvFile df2) ∧
  db_at w2 (db_path self) !! "raw_transactions" = Some df2 ∧
  ∀ items,
    registry_entries self w0 = Some items →
    metadata_path self ∉ readonly w0 →
    registry_entries self w2
    = Some (items ++ [registry_entry self dataset_name df1 (clock w0);
                      registry_entry self dataset_name df2 (S (clock w0))]).
Proof.
  intros (_ & _ & _ & _ & Hr1 & _ & _ & Hreg1)%load_raw_data_ok_inv
         (Hfile & _ & _ & _ & _ & Hd2 & _ & Hreg2)%load_raw_data_ok_inv.
  split_and!; [done| |].
  - unfold db_at. rewrite Hd2. rewrite lookup_insert_eq. simpl.
    by rewrite lookup_insert_eq.
  - intros items Hreg Hro.
    destruct (Hreg1 items Hreg Hro) as [Hreg1' Hc1].
    destruct (Hreg2 _ Hreg1') as [-> _]; [by rewrite Hr1|].
    by rewrite Hc1, <-app_assoc.
Qed.


(** The hash an ingest computes depends on the table alone: it is computed
    in every world, and is the same in any two. *)
Lemma data_hash_of_table (df : DataFrame) (w1 w2 : world) :
  fst (_calculate_data_hash df w1) = Ok (data_hash df) ∧
  fst (_calculate_data_hash df w2) = Ok (data_hash df).
Proof.
  destruct (calculate_data_hash_run df w1) as (? & -> & _).
  by destruct (calculate_data_hash_run df w2) as (? & -> & _).
Qed.
(** C8, the part that holds: the content hash is a function of the table.
    Whatever the worlds, two ingests of the same table compute the same
    hash, so two ingests with different hashes loaded different tables; and
    a hash is computed for every table. *)
Theorem content_hash_deterministic (df1 df2 : DataFrame) (w1 w2 : world) :
  (df1 = df2 →
     fst (_calculate_data_hash df1 w1) = fst (_calculate_data_hash df2 w2)) ∧
  (fst (_calculate_data_hash df1 w1) ≠ fst (_calculate_data_hash df2 w2) →
     df1 ≠ df2) ∧
  fst (_calculate_data_hash df1 w1) = Ok (data_hash df1).
Proof.
  assert (df1 = df2 →
    fst (_calculate_data_hash df1 w1) = fst (_calculate_data_hash df2 w2)) as Heq.
  { intros <-. destruct (data_hash_of_table df1 w1 w2) as [-> ->]. done. }
  split_and!; [done|by intros Hne ?; apply Hne, Heq|].
  apply (data_hash_of_table df1 w1 w1).
Qed.
End ingestion.

(** ** Digests of a fixed length collide *)

Lemma made_of_words (alphabet : list ascii) (n : nat) (s : string) :
  made_of alphabet n s → s ∈ words alphabet n.
Proof.
  revert s. induction n as [|n IH]; intros [|c s]; simpl; try done.
  - intros _. by left.
  - intros [Hc Hs]. apply list_elem_of_bind. exists c. split; [|done].
    apply list_elem_of_fmap. exists s. split; [done|by apply IH].
Qed.

Lemma length_bind_const {A B} (f : A → list B) (l : list A) (m : nat) :
  (∀ x, length (f x) = m) → length (l ≫= f) = (length l * m)%nat.
Proof.
  intros Hf. induction l as [|x l IH]; [done|]. csimpl.
  by rewrite length_app, Hf, IH.
Qed.

Lemma length_words_succ (alphabet : list ascii) (n : nat) :
  length (words alphabet (S n))
  = (length alphabet * length (words alphabet n))%nat.
Proof. simpl. apply length_bind_const. intros c. apply length_fmap. Qed.

Lemma length_words (alphabet : list ascii) (n : nat) :
  length (words alphabet n) = (length alphabet ^ n)%nat.
Proof.
  induction n as [|n IH]; [done|].
  by rewrite length_words_succ, IH.
Qed.

Lemma NoDup_words (alphabet : list ascii) (n : nat) :
  NoDup alphabet → NoDup (words alphabet n).
Proof.
  intros Ha. induction n as [|n IH]; simpl.
  - apply NoDup_singleton.
  - apply NoDup_bind; [|intros c _; by apply NoDup_fmap_2; [intros ?? [=]|]|done].
    intros c1 c2 s _ _ (s1 & -> & _)%list_elem_of_fmap
      (s2 & [= ->] & _)%list_elem_of_fmap. done.
Qed.

Lemma NoDup_memo_letters : NoDup memo_letters.
Proof. by apply (bool_decide_unpack _). Qed.

(** No function from the memos of [n + 1] letters to the strings of [n]
    hexadecimal digits and one more value is injective: there are
    [16 ^ (n + 1)] of the former and [16 ^ n + 1] of the latter. *)
Lemma no_injection_into_digests (f : string → string) (other : string)
    (n : nat) :
  (∀ s, s ∈ words memo_letters (S n) →
        made_of hex_digits n (f s) ∨ f s = other) →
  (∀ s t, s ∈ words memo_letters (S n) → t ∈ words memo_letters (S n) →
          f s = f t → s = t) →
  False.
Proof.
  intros Hrange Hinj.
  assert (NoDup (f <$> words memo_letters (S n))) as Hnd.
  { apply NoDup_fmap_2_strong; [done|]. apply NoDup_words, NoDup_memo_letters. }
  assert (f <$> words memo_letters (S n) ⊆+ other :: words hex_digits n) as Hsub.
  { apply NoDup_submseteq; [done|].
    intros y (s & -> & Hs)%list_elem_of_fmap.
    destruct (Hrange s Hs) as [Hm| ->]; [|by left].
    right. by apply made_of_words. }
  apply submseteq_length in Hsub.
  rewrite length_fmap, length_words in Hsub.
  change (length (other :: words hex_digits n))
    with (S (length (words hex_digits n))) in Hsub.
  rewrite length_words in Hsub.
  change (length hex_digits) with 16%nat in Hsub.
  change (length memo_letters) with 16%nat in Hsub.
  rewrite Nat.pow_succ_r' in Hsub.
  pose proof (Nat.pow_nonzero 16 n) as Hpos.
  revert Hsub Hpos. generalize (16 ^ n)%nat. intros x. lia.
Qed.

(** ** The ingest on sample files *)

Lemma load_raw_data_not_found_witness :
  ∃ e w',
    @load_raw_data sample_library sample_manager "creditcard.csv" "creditcard"
      (world_with_files ∅) = (Raise e, w') ∧
    kind_of e = NotFound ∧ trace w' = [Printed (Failure "File Error" e);
                                       PathExists "creditcard.csv";
                                       Printed (Progress "Loading data from")].
Proof.
  destruct (@load_raw_data_not_found sample_library sample_manager
              "creditcard.csv" "creditcard" (world_with_files ∅))
    as (e & w' & Hrun & _ & Hkind & _ & _ & Htrace); [done|].
  by exists e, w'.
Defined.

Lemma load_without_amount_writes_nothing_witness :
  let w := world_with_files {[ "creditcard.csv" := CsvFile lowercase_amount_table ]} in
  ∃ e w',
    @load_raw_data sample_library sample_manager "creditcard.csv" "creditcard" w
    = (Raise e, w') ∧
    kind_of e = Validation ∧ files w' = files w ∧ databases w' = databases w.
Proof.
  intros w.
  destruct (@load_without_amount_writes_nothing sample_library sample_manager
              "creditcard.csv" "creditcard" w lowercase_amount_table)
    as (e & w' & Hrun & Hkind & Hf & Hd & _).
  - by vm_compute.
  - by vm_compute.
  - by apply (bool_decide_unpack _).
  - by exists e, w'.
Defined.

Lemma required_columns_exact_witness :
  let w := world_with_files {[ "creditcard.csv" := CsvFile lowercase_amount_table ]} in
  missing_cols lowercase_amount_table = ["Amount"] ∧
  fst (@load_raw_data sample_library sample_manager "creditcard.csv"
         "creditcard" w)
  = Raise (ValueError "Missing required columns: ['Amount']").
Proof.
  intros w. split; [by vm_compute|].
  destruct (@required_columns_exact sample_library sample_manager
              "creditcard.csv" "creditcard" w lowercase_amount_table)
    as (_ & _ & _ & Hfails); [by vm_compute..|].
  destruct Hfails as (e & -> & -> & _); [by vm_compute|]. by vm_compute.
Defined.

Lemma second_load_replaces_first_witness :
  let w0 := world_with_files {[ "march.csv" := CsvFile card_table;
                               "april.csv" := CsvFile (sample_table [tx 9 75 1]) ]} in
  let w1 := snd (@load_raw_data sample_library sample_manager "march.csv" "creditcard" w0) in
  let w2 := snd (@load_raw_data sample_library sample_manager "april.csv" "creditcard" w1) in
  db_at w2 (db_path sample_manager) !! "raw_transactions"
  = Some (sample_table [tx 9 75 1]) ∧
  length <$> registry_entries sample_manager w2 = Some 2%nat.
Proof.
  intros w0 w1 w2.
  destruct (@second_load_replaces_first sample_library sample_manager
              "march.csv" "april.csv" "creditcard" w0 w1 w2
              card_table (sample_table [tx 9 75 1]))
    as (_ & Htable & Hreg); [by vm_compute..|].
  split; [done|]. rewrite (Hreg []); [done|by vm_compute|].
  apply not_elem_of_empty.
Defined.


(** C4 as it is stated fails: with a registry file that holds the JSON
    object without any key, both loads succeed, and the registry holds
    that object still: no entry, not two. *)
Lemma registry_without_datasets_gains_no_entry :
  let w0 := world_with_files
              (<["creditcard.csv" := CsvFile card_table]> empty_object_registry) in
  let r1 := @load_raw_data sample_library sample_manager "creditcard.csv" "creditcard" w0 in
  let r2 := @load_raw_data sample_library sample_manager "creditcard.csv" "creditcard" (snd r1) in
  fst r1 = Ok card_table ∧ fst r2 = Ok card_table ∧
  db_at (snd r2) (db_path sample_manager) !! "raw_transactions" = Some card_table ∧
  files (snd r2) !! metadata_path sample_manager = Some (JsonFile (JObj [])) ∧
  registry_entries sample_manager (snd r2) = None.
Proof. by vm_compute. Qed.


(** C8 as it is stated fails, whatever the library functions are: a
    digest of 64 hexadecimal digits cannot tell apart all the tables that
    differ in one cell.  There are more memos of 65 characters than
    digests. *)
Lemma one_changed_cell_can_keep_the_hash :
  ¬ ∃ L : Library,
      (∀ data, is_hexdigest (sha256_hexdigest data)) ∧
      ∀ df1 df2 w1 w2,
        differ_in_one_cell df1 df2 →
        fst (_calculate_data_hash df1 w1) ≠ fst (_calculate_data_hash df2 w2).
Proof.
  intros (L & Hhex & Hclaim).
  apply (no_injection_into_digests
           (λ s, data_hash (memo_table s)) "hash_unavailable" 64).
  - intros s _. unfold data_hash.
    destruct (hash_pandas_object (memo_table s)); [left; apply Hhex|by right].
  - intros s t _ _ Heq. destruct (decide (s = t)) as [|Hne]; [done|].
    destruct (Hclaim (memo_table s) (memo_table t)
                (world_with_files ∅) (world_with_files ∅)).
    + split; [done|].
      exists [], [], [VInt 0; VInt 100; VInt 0], [], (VText s), (VText t).
      split; [congruence|done].
    + destruct (data_hash_of_table (memo_table s) (world_with_files ∅)
                  (world_with_files ∅)) as [-> _].
      destruct (data_hash_of_table (memo_table t) (world_with_files ∅)
                  (world_with_files ∅)) as [-> _].
      by rewrite Heq.
Qed.

(** * Further properties *)

(** ** The time-range helper *)





Lemma numeric_literal (x : pynum) : Sql.numeric (literal x) = Some (pynum_value x).
Proof. by destruct x. Qed.




Section more_queries.
Context (self : DataStorageManager) (w : world).




(** *** Errors of the helpers *)




(** *** The counts and the filters agree *)

Lemma filter_lengths_disjoint {A} (P Q : A → Prop)
    `{∀ x, Decision (P x)} `{∀ x, Decision (Q x)} (l : list A) :
  (∀ x, P x → Q x → False) →
  (length (filter P l) + length (filter Q l) ≤ length l)%nat.
Proof.
  intros Hdis. induction l as [|x l IH]; [done|].
  rewrite !filter_cons.
  destruct (decide (P x)) as [HP|], (decide (Q x)) as [HQ|]; simpl; try lia.
  destruct (Hdis x HP HQ).
Qed.

(** X4: on a table with at least one row the count of frauds is the
    number of rows [get_fraud_transactions] returns without limit, the
    count of legitimate transactions the number [get_legitimate_transactions]
    returns, and the total the number of rows of the table; no row is
    returned by both, both return rows of the table in the table's order,
    and the two counts together do not exceed the total. *)
Theorem counts_agree_with_filters (t : DataFrame) (i : nat) :
  db_at w (db_path self) !! "raw_transactions" = Some t →
  Sql.column_index "Class" t = Some i →
  rows t ≠ [] →
  ∃ c f l,
    fst (get_transaction_count self w) = Ok c ∧
    fst (get_fraud_transactions self None w) = Ok f ∧
    fst (get_legitimate_transactions self None w) = Ok l ∧
    counts.total c = Z.of_nat (length (rows t)) ∧
    counts.fraud c = Z.of_nat (length (rows f)) ∧
    counts.legitimate c = Z.of_nat (length (rows l)) ∧
    counts.fraud c + counts.legitimate c ≤ counts.total c ∧
    rows f `sublist_of` rows t ∧ rows l `sublist_of` rows t ∧
    ∀ r, r ∈ rows f → r ∉ rows l.
Proof.
  intros Ht Hi Hrows. do 3 eexists.
  split; [by apply transaction_count_on_rows|].
  split; [by apply get_fraud_transactions_ok|].
  split; [by apply get_legitimate_transactions_ok|].
  simpl. unfold class_rows. split_and!; try done.
  - pose proof (filter_lengths_disjoint (of_class i 1) (of_class i 0) (rows t))
      as Hle.
    specialize (Hle (λ r H1 H0, of_class_exclusive i r H0 H1)). lia.
  - apply sublist_filter.
  - apply sublist_filter.
  - intros r [H1 _]%list_elem_of_filter [H0 _]%list_elem_of_filter.
    by apply (of_class_exclusive i r).
Qed.


(** *** The fraud rate is a percentage *)

Lemma Qc_of_Z_le (a b : Z) : a ≤ b → (Qc_of_Z a ≤ Qc_of_Z b)%Qc.
Proof.
  intros Hab. apply Qcle_alt. rewrite SqlFacts.Qc_of_Z_compare.
  by apply Z.compare_le_iff.
Qed.

Lemma Qc_of_Z_lt (a b : Z) : a < b → (Qc_of_Z a < Qc_of_Z b)%Qc.
Proof.
  intros Hab. apply Qclt_alt. rewrite SqlFacts.Qc_of_Z_compare.
  by apply Z.compare_lt_iff.
Qed.

(** A quotient by a positive number lies where its numerator allows. *)
Lemma Qcdiv_bounds (x y lo hi : Qc) :
  (0 < y)%Qc → (lo * y ≤ x)%Qc → (x ≤ hi * y)%Qc →
  (lo ≤ x / y)%Qc ∧ (x / y ≤ hi)%Qc.
Proof.
  intros Hy Hlo Hhi.
  assert (x / y * y = x)%Qc as Hxy.
  { unfold Qcdiv. rewrite <-Qcmult_assoc, (Qcmult_comm (/ y)).
    rewrite Qcmult_inv_r, Qcmult_1_r; [done|].
    intros ->. by apply (Qclt_not_eq 0 0). }
  split; apply (Qcmult_le_mono_pos_r _ _ y Hy); by rewrite Hxy.
Qed.

Lemma round_half_even_bounds (x : Qc) (k : Z) :
  (Qc_of_Z 0 ≤ x)%Qc → (x ≤ Qc_of_Z k)%Qc → 0 ≤ round_half_even x ≤ k.
Proof.
  unfold Qcle, Qle, round_half_even. simpl.
  destruct x as [[n d] Hc]. simpl. intros Hlo Hhi.
  pose proof (Z.div_mod n (Z.pos d) ltac:(lia)) as Hdm.
  pose proof (Z.mod_pos_bound n (Z.pos d) ltac:(lia)) as Hmod.
  assert (0 ≤ n `div` Z.pos d) by (apply Z.div_pos; lia).
  assert (n `div` Z.pos d ≤ k) by (apply Z.div_le_upper_bound; lia).
  destruct (Z.compare_spec (2 * (n `mod` Z.pos d)) (Z.pos d)) as [He|Hl|Hg].
  - destruct (Z.even (n `div` Z.pos d)); nia.
  - lia.
  - nia.
Qed.
Lemma Qc_of_Z_mult (a b : Z) : (Qc_of_Z a * Qc_of_Z b)%Qc = Qc_of_Z (a * b).
Proof.
  apply Qc_is_canon. unfold Qc_of_Z. simpl.
  rewrite Qred_correct. unfold Qeq. simpl. lia.
Qed.

(** X6: on a table with at least one row the counts lie between 0 and the
    total, and the fraud rate that [get_transaction_count] returns is a
    number between 0 and 100. *)
Theorem fraud_rate_is_a_percentage (t : DataFrame) (i : nat) :
  db_at w (db_path self) !! "raw_transactions" = Some t →
  Sql.column_index "Class" t = Some i →
  rows t ≠ [] →
  ∃ c,
    fst (get_transaction_count self w) = Ok c ∧
    0 ≤ counts.fraud c ≤ counts.total c ∧
    0 ≤ counts.legitimate c ≤ counts.total c ∧
    (Qc_of_Z 0 ≤ pynum_value (counts.fraud_rate c))%Qc ∧
    (pynum_value (counts.fraud_rate c) ≤ Qc_of_Z 100)%Qc.
Proof.
  intros Ht Hi Hrows. eexists.
  split; [by apply transaction_count_on_rows|].
  cbv [counts.fraud counts.total counts.legitimate counts.fraud_rate].
  set (n := Z.of_nat (length (rows t))).
  set (f := Z.of_nat (length (class_rows t i 1))).
  set (l := Z.of_nat (length (class_rows t i 0))).
  assert (0 < n) as Hn.
  { unfold n. destruct (rows t); [done|]. simpl. lia. }
  assert (0 ≤ f ≤ n) as Hf.
  { unfold f, n, class_rows. pose proof (length_filter (of_class i 1) (rows t)).
    lia. }
  assert (0 ≤ l ≤ n) as Hl.
  { unfold l, n, class_rows. pose proof (length_filter (of_class i 0) (rows t)).
    lia. }
  split; [done|]. split; [done|].
  unfold round3, pynum_value.
  assert (Qc_of_Z 0 ≤ Qc_of_Z f / Qc_of_Z n * Qc_of_Z 100 * Qc_of_Z 1000
          ∧ Qc_of_Z f / Qc_of_Z n * Qc_of_Z 100 * Qc_of_Z 1000
            ≤ Qc_of_Z 100000)%Qc as [Hlo Hhi].
  { destruct (Qcdiv_bounds (Qc_of_Z f) (Qc_of_Z n) (Qc_of_Z 0) (Qc_of_Z 1))
      as [Hq0 Hq1].
    - by apply (Qc_of_Z_lt 0 n).
    - rewrite Qc_of_Z_mult. apply Qc_of_Z_le. lia.
    - rewrite Qc_of_Z_mult. apply Qc_of_Z_le. lia.
    - rewrite <-Qcmult_assoc, (Qc_of_Z_mult 100 1000). split.
      + transitivity (Qc_of_Z 0 * Qc_of_Z (100 * 1000))%Qc.
        * rewrite Qc_of_Z_mult. by apply Qc_of_Z_le.
        * apply Qcmult_le_mono_nonneg_r; [by apply (Qc_of_Z_le 0)|done].
      + transitivity (Qc_of_Z 1 * Qc_of_Z (100 * 1000))%Qc.
        * apply Qcmult_le_mono_nonneg_r; [by apply (Qc_of_Z_le 0)|done].
        * rewrite Qc_of_Z_mult. by apply Qc_of_Z_le. }
  destruct (round_half_even_bounds _ 100000 Hlo Hhi) as [Hr0 Hr1].
  apply Qcdiv_bounds.
  - by apply (Qc_of_Z_lt 0 1000).
  - rewrite Qc_of_Z_mult. by apply Qc_of_Z_le.
  - rewrite Qc_of_Z_mult. by apply Qc_of_Z_le.
Qed.
End more_queries.

(** ** What a run leaves alone *)

Section keeping.
Context (P : world → world → Prop).
Hypothesis P_refl : ∀ w, P w w.
Hypothesis P_trans : ∀ w1 w2 w3, P w1 w2 → P w2 w3 → P w1 w3.
Hypothesis P_log : ∀ ev w, P w (log ev w).

Lemma keeps_mret {A} (a : A) : keeps P (mret a).
Proof. intros w r w' [= <- <-]. apply P_refl. Qed.

Lemma keeps_raise {A} (e : exn) : keeps P (@raise A e).
Proof. intros w r w' [= <- <-]. apply P_refl. Qed.

Lemma keeps_lift {A} (x : result A) : keeps P (lift x).
Proof. intros w r w' [= <- <-]. apply P_refl. Qed.

Lemma keeps_print (l : log_line) : keeps P (print l).
Proof. intros w r w' [= <- <-]. apply P_log. Qed.

Lemma keeps_bind {A B} (m : M A) (f : A → M B) :
  keeps P m → (∀ a, keeps P (f a)) → keeps P (m ≫= f).
Proof.
  intros Hm Hf w r w' Hrun. unfold mbind, M_bind in Hrun.
  destruct (m w) as [[a|e] w1] eqn:Hm1.
  - eapply P_trans; [by eapply Hm|by eapply Hf].
  - injection Hrun as <- <-. by eapply Hm.
Qed.

Lemma keeps_try {A} (m : M A) (h : exn → M A) :
  keeps P m → (∀ e, keeps P (h e)) → keeps P (try_except m h).
Proof.
  intros Hm Hh w r w' Hrun. unfold try_except in Hrun.
  destruct (m w) as [[a|e] w1] eqn:Hm1.
  - injection Hrun as <- <-. by eapply Hm.
  - eapply P_trans; [by eapply Hm|by eapply Hh].
Qed.

Lemma keeps_reraise_logged {A} (text : string) (e : exn) :
  keeps P (@reraise_logged A text e).
Proof.
  apply keeps_bind; [apply keeps_print|]. intros _. apply keeps_raise.
Qed.

Lemma keeps_path_exists (p : string) : keeps P (path_exists p).
Proof. intros w r w' [= <- <-]. apply P_log. Qed.

Lemma keeps_read_file (p : string) : keeps P (read_file p).
Proof.
  intros w r w'. unfold read_file.
  destruct (files w !! p); intros [= <- <-]; apply P_log.
Qed.

Lemma keeps_read_csv (p : string) : keeps P (read_csv p).
Proof.
  apply keeps_bind; [apply keeps_read_file|].
  intros [?|?]; [apply keeps_mret|apply keeps_raise].
Qed.

Lemma keeps_json_load (p : string) : keeps P (json_load p).
Proof.
  apply keeps_bind; [apply keeps_read_file|].
  intros [?|?]; [apply keeps_raise|apply keeps_mret].
Qed.


Lemma keeps_create_index (index table col db : string) :
  keeps P (create_index index table col db).
Proof.
  intros w r w'. unfold create_index.
  repeat case_match; intros [= <- <-]; apply P_refl || apply P_log.
Qed.



Lemma keeps_calculate_data_hash `{Library} (df : DataFrame) :
  keeps P (_calculate_data_hash df).
Proof.
  apply keeps_try.
  - apply keeps_bind; [apply keeps_lift|]. intros ?. apply keeps_mret.
  - intros e. apply keeps_bind; [apply keeps_print|]. intros _.
    apply keeps_mret.
Qed.

End keeping.




Lemma wrote_refl (paths : list string) (db table : string) (w : world) :
  wrote_at_most paths db table w w.
Proof. by repeat split. Qed.

Lemma wrote_trans (paths : list string) (db table : string)
    (w1 w2 w3 : world) :
  wrote_at_most paths db table w1 w2 →
  wrote_at_most paths db table w2 w3 →
  wrote_at_most paths db table w1 w3.
Proof.
  intros (Hf & Hd & Ht & Hr & Hc & Htr) (Hf' & Hd' & Ht' & Hr' & Hc' & Htr').
  split_and!.
  - intros p Hp. by rewrite Hf', Hf.
  - intros d Hdne. by rewrite Hd', Hd.
  - intros t Hne. by rewrite Ht', Ht.
  - by rewrite Hr'.
  - lia.
  - by etrans.
Qed.

Lemma wrote_log (paths : list string) (db table : string) (ev : event)
    (w : world) :
  wrote_at_most paths db table w (log ev w).
Proof. split_and!; try done. simpl. by apply suffix_cons_r. Qed.

Lemma wrote_datetime_now (paths : list string) (db table : string) :
  keeps (wrote_at_most paths db table) datetime_now.
Proof.
  intros w r w' [= <- <-]. split_and!; try done; simpl; [lia|].
  by apply suffix_cons_r.
Qed.

Lemma wrote_write_file (paths : list string) (db table p : string) (f : file) :
  p ∈ paths → keeps (wrote_at_most paths db table) (write_file p f).
Proof.
  intros Hp w r w'. unfold write_file. case_bool_decide.
  - intros [= <- <-]. apply wrote_refl.
  - intros [= <- <-]. split_and!; try done; simpl.
    + intros q Hq. apply lookup_insert_ne. by intros ->.
    + by apply suffix_cons_r.
Qed.

Lemma wrote_to_sql (paths : list string) (db table : string) (df : DataFrame) :
  keeps (wrote_at_most paths db table) (to_sql df table db).
Proof.
  intros w r w'. unfold to_sql. repeat case_bool_decide.
  - intros [= <- <-]. apply wrote_refl.
  - intros [= <- <-]. split_and!; try done; simpl.
    + intros d Hd. by apply lookup_insert_ne.
    + intros t Ht. unfold db_at at 1. simpl. rewrite lookup_insert_eq. simpl.
      by apply lookup_insert_ne.
    + by apply suffix_cons_r.
  - intros [= <- <-]. split_and!; try done; simpl.
    + intros d Hd. by apply lookup_insert_ne.
    + intros t Ht. unfold db_at at 1. simpl. rewrite lookup_insert_eq. simpl.
      by apply lookup_delete_ne.
    + by apply suffix_cons_r.
Qed.



Section more_ingestion.
Context `{Library} (self : DataStorageManager).

Lemma wrote_save_to_sqlite (paths : list string) (df : DataFrame)
    (table : string) :
  keeps (wrote_at_most paths (db_path self) table)
    (_save_to_sqlite self df table).
Proof.
  pose proof (wrote_refl paths (db_path self) table) as Hrefl.
  pose proof (wrote_trans paths (db_path self) table) as Htrans.
  pose proof (wrote_log paths (db_path self) table) as Hlog.
  apply keeps_try; [done| |].
  - apply keeps_bind; [done|apply wrote_to_sql|]. intros _.
    apply keeps_bind; [done| |intros _; by apply keeps_print].
    destruct (String.eqb table "raw_transactions"); [|by apply keeps_mret].
    repeat (apply keeps_bind; [done|by apply keeps_create_index|]; intros _).
    by apply keeps_create_index.
  - intros e. destruct (is_sqlite_error e); by apply keeps_reraise_logged.
Qed.

Lemma wrote_record_metadata (paths : list string) (db table : string)
    (kwargs : list (string * json)) :
  metadata_path self ∈ paths →
  keeps (wrote_at_most paths db table) (_record_metadata self kwargs).
Proof.
  intros Hp.
  pose proof (wrote_refl paths db table) as Hrefl.
  pose proof (wrote_trans paths db table) as Htrans.
  pose proof (wrote_log paths db table) as Hlog.
  apply keeps_try; [done| |intros e; by apply keeps_print].
  apply keeps_bind; [done|by apply keeps_path_exists|]. intros present.
  apply keeps_bind; [done| |].
  { destruct present; [by apply keeps_json_load|by apply keeps_mret]. }
  intros registry.
  apply keeps_bind; [done|apply wrote_datetime_now|]. intros now.
  apply keeps_bind; [done|by apply keeps_lift|]. intros registry'.
  apply keeps_bind; [done|by apply wrote_write_file|]. intros _.
  by apply keeps_print.
Qed.

(** X7: whatever it returns or raises, [load_raw_data] writes no file but
    the raw copy and the registry and no table but [raw_transactions] of
    the manager's database: every other file, database and table is as it
    was, no permission has changed, the clock has not gone back and the
    trace has only grown. *)
Theorem load_raw_data_writes_only_its_own
    (csv_path dataset_name : string) (w : world) :
  wrote_at_most [raw_output_path self dataset_name; metadata_path self]
    (db_path self) "raw_transactions"
    w (load_raw_data self csv_path dataset_name w).2.
Proof.
  set (paths := [raw_output_path self dataset_name; metadata_path self]).
  pose proof (wrote_refl paths (db_path self) "raw_transactions") as Hrefl.
  pose proof (wrote_trans paths (db_path self) "raw_transactions") as Htrans.
  pose proof (wrote_log paths (db_path self) "raw_transactions") as Hlog.
  cut (keeps (wrote_at_most paths (db_path self) "raw_transactions")
         (load_raw_data self csv_path dataset_name)).
  { intros Hk. destruct (load_raw_data _ _ _ w) as [r w'] eqn:Hrun.
    by eapply Hk. }
  apply keeps_try; [done| |].
  2:{ intros e. destruct e; by apply keeps_reraise_logged. }
  apply keeps_bind; [done|by apply keeps_print|]. intros _.
  apply keeps_bind; [done|by apply keeps_path_exists|]. intros present.
  apply keeps_bind; [done| |intros _].
  { destruct present; [by apply keeps_mret|by apply keeps_raise]. }
  apply keeps_bind; [done|by apply keeps_read_csv|]. intros df.
  apply keeps_bind; [done| |intros _].
  { destruct (df_empty df); [by apply keeps_raise|by apply keeps_mret]. }
  apply keeps_bind; [done| |intros _].
  { case_bool_decide; [by apply keeps_mret|by apply keeps_raise]. }
  apply keeps_bind; [done|by apply keeps_print|]. intros _.
  apply keeps_bind; [done|by apply keeps_calculate_data_hash|]. intros h.
  apply keeps_bind; [done| |intros _].
  { apply wrote_write_file. apply elem_of_cons. by left. }
  apply keeps_bind; [done|by apply keeps_print|]. intros _.
  apply keeps_bind; [done|apply wrote_save_to_sqlite|]. intros _.
  apply keeps_bind; [done| |intros _].
  { apply wrote_record_metadata. apply elem_of_cons. right.
    apply elem_of_cons. by left. }
  apply keeps_bind; [done|by apply keeps_lift|]. intros mean.
  apply keeps_bind; [done|by apply keeps_print|]. intros _.
  by apply keeps_mret.
Qed.

(** X8: whatever it returns or raises, [save_processed_data] writes no
    file but the stage's CSV file and no table but [processed_<stage>] of
    the manager's database; in particular it never touches the registry
    nor [raw_transactions]. *)
Theorem save_processed_data_writes_only_its_own
    (df : DataFrame) (stage_name : string) (w : world) :
  let w' := (save_processed_data self df stage_name w).2 in
  wrote_at_most [processed_path self stage_name]
    (db_path self) (processed_table stage_name) w w' ∧
  files w' !! metadata_path self = files w !! metadata_path self ∧
  db_at w' (db_path self) !! "raw_transactions"
  = db_at w (db_path self) !! "raw_transactions".
Proof.
  set (paths := [processed_path self stage_name]).
  pose proof (wrote_refl paths (db_path self) (processed_table stage_name))
    as Hrefl.
  pose proof (wrote_trans paths (db_path self) (processed_table stage_name))
    as Htrans.
  pose proof (wrote_log paths (db_path self) (processed_table stage_name))
    as Hlog.
  assert (keeps (wrote_at_most paths (db_path self) (processed_table stage_name))
            (save_processed_data self df stage_name)) as Hk.
  { apply keeps_try; [done| |intros e; by apply keeps_reraise_logged].
    apply keeps_bind; [done| |intros _].
    { apply wrote_write_file. apply elem_of_cons. by left. }
    apply keeps_bind; [done|apply wrote_save_to_sqlite|]. intros _.
    apply keeps_bind; [done|by apply keeps_print|]. intros _.
    by apply keeps_mret. }
  intros w'. subst w'.
  destruct (save_processed_data self df stage_name w) as [r w'] eqn:Hrun.
  pose proof (Hk _ _ _ Hrun) as Hw. split; [done|].
  destruct Hw as (Hf & _ & Ht & _). simpl. split.
  - apply Hf. intros [Heq|Hin]%elem_of_cons; [|by apply elem_of_nil in Hin].
    revert Heq. unfold metadata_path, processed_path, joinpath.
    intros Heq%(f_equal last_char).
    rewrite !last_char_app in Heq by (by destruct stage_name).
    done.
  - by apply Ht.
Qed.

(** *** Where an ingest stops *)


(** The run of an ingest up to the writing of the raw copy, on a table
    that passes the checks. *)
Lemma load_raw_data_checked
    (csv_path dataset_name : string) (w : world) (df : DataFrame) :
  files w !! csv_path = Some (CsvFile df) →
  df_empty df = false →
  missing_cols df = [] →
  ∃ w8,
    same_store w w8 ∧
    load_raw_data self csv_path dataset_name w
    = try_except
        (to_csv df (raw_output_path self dataset_name);;
         print (Progress "Raw data saved to");;
         _save_to_sqlite self df "raw_transactions";;
         _record_metadata self
           (metadata_kwargs dataset_name (data_hash df) (df_len df)
              (df_width df) (raw_output_path self dataset_name));;
         _ ← lift (getitem df "Class" ≫= series_mean);
         print (Progress "Fraud rate");;
         mret df)
        (λ e,
          match e with
          | FileNotFoundError _ => reraise_logged "File Error" e
          | ValueError _ => reraise_logged "Validation Error" e
          | _ => reraise_logged "Unexpected error loading data" e
          end) w8.
Proof.
  intros Hfile Hne Hmiss. unfold load_raw_data.
  erewrite try_bind_ok by reflexivity.
  erewrite try_bind_ok by (by eapply path_exists_present).
  erewrite try_bind_ok by reflexivity.
  erewrite try_bind_ok by (by eapply read_csv_table).
  rewrite Hne. erewrite try_bind_ok by reflexivity.
  rewrite bool_decide_eq_true_2 by done.
  erewrite try_bind_ok by reflexivity.
  erewrite try_bind_ok by reflexivity.
  match goal with |- context [try_except _ _ ?w0] =>
    destruct (calculate_data_hash_run df w0) as (w8 & Hh & Hs)
  end.
  erewrite try_bind_ok by exact Hh.
  exists w8. split; [|reflexivity].
  destruct Hs as (Hf8 & Hd8 & Hr8 & Hc8). by split_and!.
Qed.

(** X10: when the raw copy cannot be written, an ingest of a table that
    passes the checks fails with the [PermissionError] of that path, of
    kind IO and reported as unexpected, and nothing is stored: no file and
    no database has changed. *)
Theorem load_raw_data_unwritable_copy
    (csv_path dataset_name : string) (w : world) (df : DataFrame) :
  files w !! csv_path = Some (CsvFile df) →
  df_empty df = false →
  missing_cols df = [] →
  raw_output_path self dataset_name ∈ readonly w →
  ∃ e w',
    load_raw_data self csv_path dataset_name w = (Raise e, w') ∧
    e = PermissionError (raw_output_path self dataset_name) ∧
    kind_of e = IO ∧
    files w' = files w ∧ databases w' = databases w ∧
    head (trace w')
    = Some (Printed (Failure "Unexpected error loading data" e)).
Proof.
  intros Hfile Hne Hmiss Hro.
  destruct (load_raw_data_checked csv_path dataset_name w df Hfile Hne Hmiss)
    as (w8 & (Hf8 & Hd8 & Hr8 & Hc8) & ->).
  assert (to_csv df (raw_output_path self dataset_name) w8
          = (Raise (PermissionError (raw_output_path self dataset_name)), w8))
    as Hwrite.
  { unfold to_csv, write_file.
    by rewrite bool_decide_eq_true_2 by (by rewrite Hr8). }
  rewrite (try_bind_raise _ _ _ _ _ _ Hwrite).
  do 2 eexists. split; [reflexivity|]. by split_and!.
Qed.



(** *** What a successful ingest leaves behind *)

Lemma registry_entry_fields (dataset_name : string) (df : DataFrame) (t : nat) :
  let entry := registry_entry self dataset_name df t in
  entry_keys entry
  = ["timestamp"; "dataset_name"; "data_hash"; "row_count"; "column_count";
     "file_path"] ∧
  entry_field "timestamp" entry = Some (JStr (isoformat t)) ∧
  entry_field "dataset_name" entry = Some (JStr dataset_name) ∧
  entry_field "data_hash" entry = Some (JStr (data_hash df)) ∧
  entry_field "row_count" entry = Some (JNum (Z.of_nat (length (rows df)))) ∧
  entry_field "column_count" entry
  = Some (JNum (Z.of_nat (length (columns df)))) ∧
  entry_field "file_path" entry
  = Some (JStr (raw_output_path self dataset_name)).
Proof. by split_and!. Qed.

(** X12: after a successful ingest into a registry that can be used and
    written, the registry holds the entries it held, in their order, and
    one more at the end; that entry has the six keys [timestamp],
    [dataset_name], [data_hash], [row_count], [column_count] and
    [file_path], in this order, bound to the reading of the clock at the
    start, the name given, the hash of the table, its numbers of rows and
    columns, and the path of the raw copy, which holds the table. *)
Theorem ingest_appends_one_entry
    (csv_path dataset_name : string) (w w' : world) (df : DataFrame)
    (items : list json) :
  load_raw_data self csv_path dataset_name w = (Ok df, w') →
  registry_entries self w = Some items →
  metadata_path self ∉ readonly w →
  ∃ entry path,
    registry_entries self w' = Some (items ++ [entry]) ∧
    entry_keys entry
    = ["timestamp"; "dataset_name"; "data_hash"; "row_count"; "column_count";
       "file_path"] ∧
    entry_field "timestamp" entry = Some (JStr (isoformat (clock w))) ∧
    entry_field "dataset_name" entry = Some (JStr dataset_name) ∧
    entry_field "data_hash" entry = Some (JStr (data_hash df)) ∧
    entry_field "row_count" entry = Some (JNum (Z.of_nat (length (rows df)))) ∧
    entry_field "column_count" entry
    = Some (JNum (Z.of_nat (length (columns df)))) ∧
    entry_field "file_path" entry = Some (JStr path) ∧
    files w' !! path = Some (CsvFile df).
Proof.
  intros Hrun Hreg Hro.
  apply load_raw_data_ok_inv in Hrun as (_ & _ & _ & _ & _ & _ & Hraw & Hent).
  destruct (Hent items Hreg Hro) as [Hreg' _].
  exists (registry_entry self dataset_name df (clock w)),
    (raw_output_path self dataset_name).
  pose proof (registry_entry_fields dataset_name df (clock w)) as Hfields.
  simpl in Hfields. by split_and!.
Qed.


(** X14: the query helpers read what the last successful ingest stored:
    in the world it leaves, [get_transaction_count] succeeds (the table is
    never empty then) with the number of rows of the ingested table as its
    total, and [get_fraud_transactions] without a limit returns the
    columns of that table and its rows of class 1, as many as the count
    reports. *)
Theorem helpers_read_the_ingested_table
    (csv_path dataset_name : string) (w w' : world) (df : DataFrame) :
  load_raw_data self csv_path dataset_name w = (Ok df, w') →
  ∃ i c f,
    Sql.column_index "Class" df = Some i ∧
    fst (get_transaction_count self w') = Ok c ∧
    counts.total c = Z.of_nat (df_len df) ∧
    0 < counts.total c ∧
    fst (get_fraud_transactions self None w') = Ok f ∧
    columns f = columns df ∧
    rows f = class_rows df i 1 ∧
    counts.fraud c = Z.of_nat (length (rows f)).
Proof.
  intros Hrun.
  apply load_raw_data_ok_inv in Hrun
    as (_ & Hne & (_ & _ & Hclass)%missing_cols_nil & _ & _ & Hdb & _).
  destruct (column_index_present "Class" df Hclass) as [i Hi].
  assert (db_at w' (db_path self) !! "raw_transactions" = Some df) as Ht.
  { unfold db_at. rewrite Hdb, lookup_insert_eq. simpl.
    by rewrite lookup_insert_eq. }
  assert (rows df ≠ []) as Hrows.
  { intros Hnil. unfold df_empty, df_len in Hne. rewrite Hnil in Hne.
    done. }
  exists i. do 2 eexists.
  split; [done|].
  split; [by apply transaction_count_on_rows|].
  split; [done|].
  split; [simpl; destruct (rows df); [done|simpl; lia]|].
  split; [by apply get_fraud_transactions_ok|].
  done.
Qed.

(** *** Processed stages *)




(** *** The registry file *)

Lemma obj_get_set_ne (k k' : string) (v : json) (fields : list (string * json)) :
  k ≠ k' → obj_get k (obj_set k' v fields) = obj_get k fields.
Proof.
  intros Hne. induction fields as [|[k0 v0] rest IH]; simpl.
  - by rewrite (proj2 (String.eqb_neq k' k)).
  - destruct (String.eqb k0 k') eqn:Hk0; simpl.
    + apply String.eqb_eq in Hk0 as ->.
      by rewrite (proj2 (String.eqb_neq k' k)).
    + by rewrite IH.
Qed.

Lemma obj_set_keys (k : string) (v v' : json) (fields : list (string * json)) :
  obj_get k fields = Some v' → (obj_set k v fields).*1 = fields.*1.
Proof.
  induction fields as [|[k0 v0] rest IH]; simpl; [done|].
  destruct (String.eqb k0 k) eqn:Hk0.
  - apply String.eqb_eq in Hk0 as ->. intros _. by rewrite !fmap_cons.
  - intros Hget. rewrite !fmap_cons. f_equal. by apply IH.
Qed.

(** X17: on a registry file that holds a JSON object with a list under
    [datasets] and can be written, [_record_metadata] rewrites the file
    with the same keys in the same order, every value but the list as it
    was, and the list longer by one entry at its end. *)
Theorem record_metadata_keeps_the_rest
    (kwargs : list (string * json)) (w : world)
    (fields : list (string * json)) (items : list json) :
  files w !! metadata_path self = Some (JsonFile (JObj fields)) →
  obj_get "datasets" fields = Some (JArr items) →
  metadata_path self ∉ readonly w →
  ∃ w' fields',
    _record_metadata self kwargs w = (Ok (), w') ∧
    files w' !! metadata_path self = Some (JsonFile (JObj fields')) ∧
    obj_get "datasets" fields'
    = Some (JArr (items ++ [entry_dict (isoformat (clock w)) kwargs])) ∧
    (∀ k, k ≠ "datasets" → obj_get k fields' = obj_get k fields) ∧
    fields'.*1 = fields.*1.
Proof.
  intros Hfile Hget Hro.
  exists (log (Printed (Progress "Metadata recorded"))
            (log (WriteFile (metadata_path self))
               (set_files
                  (<[metadata_path self :=
                       JsonFile
                         (JObj (obj_set "datasets"
                                  (JArr (items
                                         ++ [entry_dict (isoformat (clock w))
                                               kwargs]))
                                  fields))]> (files w))
                  (log ClockRead
                     (set_clock (S (clock w))
                        (log (ReadFile (metadata_path self))
                           (log (PathExists (metadata_path self)) w))))))).
  eexists. split_and!.
  - unfold _record_metadata. apply try_ok. unfold append_to_registry.
    erewrite bind_ok by (by eapply path_exists_present).
    erewrite bind_ok; last first.
    { unfold json_load.
      match goal with |- (_ ≫= _) ?w0 = _ =>
        assert (read_file (metadata_path self) w0
                = (Ok (JsonFile (JObj fields)),
                   log (ReadFile (metadata_path self)) w0)) as Hread
          by (unfold read_file; simpl; by rewrite Hfile)
      end.
      by rewrite (bind_ok _ _ _ _ _ Hread). }
    erewrite bind_ok by reflexivity.
    erewrite bind_ok; last first.
    { unfold lift, append_dataset. by rewrite Hget. }
    erewrite bind_ok; last first.
    { unfold json_dump, write_file. simpl.
      by rewrite bool_decide_eq_false_2 by done. }
    reflexivity.
  - simpl. by rewrite lookup_insert_eq.
  - by rewrite obj_get_set.
  - intros k Hk. by apply obj_get_set_ne.
  - by eapply obj_set_keys.
Qed.

Lemma kwargs_get (k : string) (v : json) (d kwargs : list (string * json)) :
  NoDup kwargs.*1 → (k, v) ∈ kwargs →
  obj_get k (foldl (λ d kv, obj_set kv.1 kv.2 d) d kwargs) = Some v.
Proof.
  revert d. induction kwargs as [|[k0 v0] rest IH]; intros d Hnd Hin.
  - by apply elem_of_nil in Hin.
  - apply NoDup_cons in Hnd as [Hk0 Hnd]. simpl.
    apply elem_of_cons in Hin as [[= -> ->]|Hin].
    + clear IH. revert d. induction rest as [|[k1 v1] rest IH]; intros d.
      * simpl. apply obj_get_set.
      * simpl. apply not_elem_of_cons in Hk0 as [Hne Hk0].
        apply NoDup_cons in Hnd as [_ Hnd]. simpl in Hne.
        assert (∀ d', obj_get k0 d' = Some v0 →
                  obj_get k0 (foldl (λ d kv, obj_set kv.1 kv.2 d) d' rest)
                  = Some v0) as Hkeep.
        { clear IH. revert Hk0. clear. induction rest as [|[k2 v2] rest IH];
            intros Hk0 d' Hd'; [done|]. simpl.
          apply not_elem_of_cons in Hk0 as [Hne Hk0]. simpl in Hne.
          apply IH; [done|]. by rewrite obj_get_set_ne. }
        apply Hkeep. rewrite obj_get_set_ne by done. apply obj_get_set.
    + by apply IH.
Qed.

Lemma kwargs_other (k : string) (d kwargs : list (string * json)) :
  k ∉ kwargs.*1 →
  obj_get k (foldl (λ d kv, obj_set kv.1 kv.2 d) d kwargs) = obj_get k d.
Proof.
  revert d. induction kwargs as [|[k0 v0] rest IH]; intros d Hk; [done|].
  simpl. apply not_elem_of_cons in Hk as [Hne Hk]. simpl in Hne.
  rewrite IH by done. by apply obj_get_set_ne.
Qed.

(** X18: the entry [_record_metadata] builds binds every keyword it was
    given to the value given, and [timestamp] to the reading of the clock
    unless a keyword of that name was given, which then replaces it; it
    has no other key. *)
Theorem entry_holds_every_keyword
    (t : string) (kwargs : list (string * json)) :
  NoDup kwargs.*1 →
  let entry := entry_dict t kwargs in
  (∀ k v, (k, v) ∈ kwargs → entry_field k entry = Some v) ∧
  ("timestamp" ∉ kwargs.*1 → entry_field "timestamp" entry = Some (JStr t)) ∧
  (∀ k, k ≠ "timestamp" → k ∉ kwargs.*1 → entry_field k entry = None).
Proof.
  intros Hnd entry. unfold entry, entry_dict, entry_field. split_and!.
  - intros k v Hin. by apply kwargs_get.
  - intros Hk. by rewrite kwargs_other.
  - intros k Hne Hk. rewrite kwargs_other by done. cbn [obj_get].
    assert (String.eqb "timestamp" k = false) as ->; [|done].
    apply String.eqb_neq. by intros <-.
Qed.

(** *** The indexes of the transactions table *)



End more_ingestion.

(** ** The further properties on sample stores *)




Lemma counts_agree_with_filters_witness :
  ∃ c f l,
    fst (get_transaction_count sample_manager
           (world_with_table (sample_table six_transactions))) = Ok c ∧
    fst (get_fraud_transactions sample_manager None
           (world_with_table (sample_table six_transactions))) = Ok f ∧
    fst (get_legitimate_transactions sample_manager None
           (world_with_table (sample_table six_transactions))) = Ok l ∧
    counts.total c = 6 ∧
    counts.fraud c = Z.of_nat (length (rows f)) ∧
    counts.legitimate c = Z.of_nat (length (rows l)).
Proof.
  destruct (counts_agree_with_filters sample_manager
              (world_with_table (sample_table six_transactions))
              (sample_table six_transactions) 2)
    as (c & f & l & Hc & Hf & Hl & Htotal & Hfraud & Hlegit & _);
    [by vm_compute..|].
  by exists c, f, l.
Defined.


Lemma fraud_rate_is_a_percentage_witness :
  ∃ c,
    fst (get_transaction_count sample_manager
           (world_with_table (sample_table six_transactions))) = Ok c ∧
    (Qc_of_Z 0 ≤ pynum_value (counts.fraud_rate c))%Qc ∧
    (pynum_value (counts.fraud_rate c) ≤ Qc_of_Z 100)%Qc.
Proof.
  destruct (fraud_rate_is_a_percentage sample_manager
              (world_with_table (sample_table six_transactions))
              (sample_table six_transactions) 2)
    as (c & Hc & _ & _ & Hlo & Hhi); [by vm_compute..|].
  by exists c.
Defined.


Lemma load_raw_data_unwritable_copy_witness :
  let w := world_with_readonly {[ "creditcard.csv" := CsvFile card_table ]}
             {[ raw_output_path sample_manager "creditcard" ]} in
  ∃ path w',
    @load_raw_data sample_library sample_manager "creditcard.csv" "creditcard" w
    = (Raise (PermissionError path), w') ∧
    files w' = files w ∧ databases w' = databases w.
Proof.
  intros w.
  destruct (@load_raw_data_unwritable_copy sample_library sample_manager
              "creditcard.csv" "creditcard" w card_table)
    as (e & w' & Hrun & -> & _ & Hf & Hd & _).
  - by vm_compute.
  - by vm_compute.
  - by vm_compute.
  - by apply (bool_decide_unpack _).
  - by eexists _, w'.
Defined.


Lemma ingest_appends_one_entry_witness :
  let w := world_with_files {[ "creditcard.csv" := CsvFile card_table ]} in
  let w' := snd (@load_raw_data sample_library sample_manager
                   "creditcard.csv" "creditcard" w) in
  ∃ entry,
    registry_entries sample_manager w' = Some [entry] ∧
    entry_field "dataset_name" entry = Some (JStr "creditcard") ∧
    entry_field "row_count" entry = Some (JNum 3) ∧
    entry_field "column_count" entry = Some (JNum 3).
Proof.
  intros w w'.
  destruct (@ingest_appends_one_entry sample_library sample_manager
              "creditcard.csv" "creditcard" w w' card_table [])
    as (entry & path & Hreg & _ & _ & Hname & _ & Hrows & Hcols & _).
  - by vm_compute.
  - by vm_compute.
  - apply not_elem_of_empty.
  - by exists entry.
Defined.


Lemma helpers_read_the_ingested_table_witness :
  let w := world_with_files {[ "creditcard.csv" := CsvFile card_table ]} in
  let w' := snd (@load_raw_data sample_library sample_manager
                   "creditcard.csv" "creditcard" w) in
  ∃ c f,
    fst (get_transaction_count sample_manager w') = Ok c ∧
    counts.total c = 3 ∧
    fst (get_fraud_transactions sample_manager None w') = Ok f ∧
    counts.fraud c = Z.of_nat (length (rows f)).
Proof.
  intros w w'.
  destruct (@helpers_read_the_ingested_table sample_library sample_manager
              "creditcard.csv" "creditcard" w w' card_table)
    as (i & c & f & _ & Hc & Htotal & _ & Hf & _ & _ & Hfraud);
    [by vm_compute|].
  by exists c, f.
Defined.



Lemma record_metadata_keeps_the_rest_witness :
  let fields := [("version", JNum 1); ("datasets", JArr [JNull])] in
  let w := world_with_files
             {[ metadata_path sample_manager := JsonFile (JObj fields) ]} in
  ∃ w' fields' entry,
    @_record_metadata sample_library sample_manager [("stage", JStr "raw")] w
    = (Ok (), w') ∧
    files w' !! metadata_path sample_manager = Some (JsonFile (JObj fields')) ∧
    obj_get "datasets" fields' = Some (JArr [JNull; entry]) ∧
    obj_get "version" fields' = Some (JNum 1).
Proof.
  intros fields w.
  destruct (@record_metadata_keeps_the_rest sample_library sample_manager
              [("stage", JStr "raw")] w fields [JNull])
    as (w' & fields' & Hrun & Hfile & Hdatasets & Hrest & _).
  - by vm_compute.
  - reflexivity.
  - apply not_elem_of_empty.
  - exists w', fields'. eexists. split_and!.
    + exact Hrun.
    + exact Hfile.
    + exact Hdatasets.
    + rewrite Hrest; [reflexivity|done].
Defined.

Lemma entry_holds_every_keyword_witness :
  entry_field "timestamp"
    (entry_dict "2013-09-01T00:00:00"
       [("dataset_name", JStr "creditcard"); ("timestamp", JStr "never")])
  = Some (JStr "never").
Proof.
  pose proof (entry_holds_every_keyword "2013-09-01T00:00:00"
                [("dataset_name", JStr "creditcard");
                 ("timestamp", JStr "never")]) as Hentry.
  cbv zeta in Hentry. destruct Hentry as (Hgiven & _).
  - by apply (bool_decide_unpack _).
  - apply Hgiven. apply elem_of_cons. right. apply elem_of_cons. by left.
Defined.


